(** * The Seattle weather dashboard: filter, summary and CSV export

    A shallow embedding of [streamlit_app.py]: the size formatter
    [format_size], the two-stage row filter built from pandas' [isin],
    [between] and boolean-mask indexing, the date bounds handed to the date
    widgets, the [describe] summary and the two CSV serialisations (the one
    offered for download and the one whose length is displayed). *)

From Stdlib Require Import ZArith QArith Qpower Qabs Lqa Lia Bool.
From Stdlib Require Import List String Ascii DecimalString.
From stdpp Require Import list.
Import ListNotations.

Local Open Scope string_scope.

(** ** Text

    A Python [str] is modelled as a Rocq [string] whose characters are the
    code points U+0000 to U+00FF.  [len] counts characters; [encode_utf8]
    gives one byte for a code point below 128 and two bytes otherwise. *)

Module Text.

#[global] Instance string_eq_dec : EqDecision string := string_dec.

Definition len (s : string) : nat := String.length s.

Definition join (sep : string) (parts : list string) : string :=
  String.concat sep parts.

(** Bytes are numbers below 256. *)
Definition encode_char (c : ascii) : list N :=
  let n := N_of_ascii c in
  if (n <? 128)%N then [n]
  else [N.lor 192 (N.shiftr n 6); N.lor 128 (N.land n 63)].

Fixpoint encode_utf8 (s : string) : list N :=
  match s with
  | EmptyString => []
  | String c rest => (encode_char c ++ encode_utf8 rest)%list
  end.

Definition is_ascii (s : string) : Prop :=
  Forall (fun c => (N_of_ascii c < 128)%N) (list_ascii_of_string s).

Definition is_digit (c : ascii) : Prop :=
  (48 <= nat_of_ascii c <= 57)%nat.

(** [str(n)] for an integer. *)
Definition str_of_nonneg (n : Z) : string :=
  NilZero.string_of_uint (N.to_uint (Z.to_N n)).

Definition str_of_Z (n : Z) : string :=
  if (n <? 0)%Z then "-" ++ str_of_nonneg (- n) else str_of_nonneg n.

End Text.

(** ** [format_size]

    [size_in_bytes] is a number: the call sites pass the int returned by
    [buffer.tell()].  It is modelled as an exact rational.  Python's [/= 1024]
    on a float above 1024, and on an int of magnitude below 2^53, is exact,
    and the [.2f] conversion rounds the exact value half-to-even, so the
    rational model computes what the code computes on those inputs.
    Infinities, NaN and the sign of a zero are outside the model. *)

Module FormatSize.

Definition units : list string := ["B"; "KB"; "MB"; "GB"; "TB"].

(** The two loop variables. *)
Record state : Type := mkState { size : Q; unit : nat }.

Definition Qgtb (a b : Q) : bool := negb (Qle_bool a b).

(** [size > 1024 and unit < len(units) - 1] *)
Definition cond (st : state) : bool :=
  Qgtb (size st) 1024 && (unit st <? List.length units - 1)%nat.

(** [size /= 1024; unit += 1] *)
Definition body (st : state) : state :=
  {| size := size st / 1024; unit := S (unit st) |}.

(** The [while] loop; [None] when the fuel runs out before the condition
    turns false. *)
Fixpoint while (fuel : nat) (st : state) : option state :=
  if cond st then
    match fuel with
    | O => None
    | S fuel' => while fuel' (body st)
    end
  else Some st.

(** Nearest integer, ties to the even one. *)
Definition round_half_even (q : Q) : Z :=
  let n := Qnum q in
  let d := Zpos (Qden q) in
  let f := (n / d)%Z in
  let r := (n mod d)%Z in
  match (2 * r ?= d)%Z with
  | Lt => f
  | Gt => (f + 1)%Z
  | Eq => if Z.even f then f else (f + 1)%Z
  end.

Definition digit (n : Z) : ascii := ascii_of_nat (48 + Z.to_nat n).

(** [f"{q:.2f}"] *)
Definition format_2f (q : Q) : string :=
  let c := Z.abs (round_half_even (q * 100)) in
  (if Qgtb 0 q then "-" else "")
  ++ Text.str_of_nonneg (c / 100)
  ++ "."
  ++ String (digit ((c / 10) mod 10)) (String (digit (c mod 10)) "").

(** [f"{size:.2f} {units[unit]}"]; an index out of range raises. *)
Definition render (st : state) : option string :=
  match nth_error units (unit st) with
  | Some u => Some (format_2f (size st) ++ " " ++ u)
  | None => None
  end.

Definition init (size_in_bytes : Q) : state :=
  {| size := size_in_bytes; unit := 0 |}.

Definition format_size_fuel (fuel : nat) (size_in_bytes : Q) : option string :=
  match while fuel (init size_in_bytes) with
  | Some st => render st
  | None => None
  end.

(** [format_size(size_in_bytes)].  [None] stands for a loop that does not
    exit within the fuel or for an index outside [units]; neither occurs. *)
Definition format_size (size_in_bytes : Q) : option string :=
  format_size_fuel (List.length units) size_in_bytes.

(** The value and the unit index the loop of [format_size] stops at:
    [n] rounds of the body. *)
Definition after (n : nat) (size_in_bytes : Q) : state :=
  Nat.iter n body (init size_in_bytes).

End FormatSize.

(** ** Exceptions

    Code that can raise returns a [result]. *)

Inductive exn : Type :=
| ValueError (msg : string)
| OverflowError (msg : string)
| IndexError (msg : string).

Inductive result (A : Type) : Type :=
| Ok (a : A)
| Raise (e : exn).

Arguments Ok {A} a.
Arguments Raise {A} e.

#[global] Instance result_ret : MRet result := fun A a => Ok a.

#[global] Instance result_bind : MBind result := fun A B f m =>
  match m with
  | Ok a => f a
  | Raise e => Raise e
  end.

(** ** [format_size] on Python numbers

    The callers pass an int, [buffer.tell()], and the loop turns it into a
    float at its first division.  An int is converted to binary64 by
    rounding to 53 significant bits, ties to even, and the conversion
    raises [OverflowError] beyond the float range; [int / int] is the
    correctly rounded quotient.  A float above 1024 is divided by 1024
    exactly, so a finite float is carried by its exact value and
    [FormatSize] is the loop on such values. *)

Module Number.

Inductive float : Type :=
| Finite (q : Q)
| NegZero
| Inf (negative : bool)
| NaN.

Inductive number : Type :=
| Int (n : Z)
| Float (x : float).

(** The integer nearest to [n] that has at most 53 significant bits, the
    even one of two: the value of [float(n)]. *)
Definition round53 (n : Z) : Z :=
  let a := Z.abs n in
  let k := (Z.log2 a - 52)%Z in
  if (k <=? 0)%Z then n
  else
    let m := (a / 2 ^ k)%Z in
    let r := (a mod 2 ^ k)%Z in
    let m' := match (2 * r ?= 2 ^ k)%Z with
              | Lt => m
              | Gt => (m + 1)%Z
              | Eq => if Z.even m then m else (m + 1)%Z
              end in
    (Z.sgn n * (m' * 2 ^ k))%Z.

(** [float(n)], as [f"{n:.2f}"] calls it on an int. *)
Definition float_of_int (n : Z) : result float :=
  let v := round53 n in
  if (2 ^ 1024 <=? Z.abs v)%Z
  then Raise (OverflowError "int too large to convert to float")
  else Ok (Finite (inject_Z v)).

(** [n / 1024] on an int: the quotient rounded once. *)
Definition int_truediv_1024 (n : Z) : result float :=
  let v := round53 n in
  if (2 ^ 1034 <=? Z.abs v)%Z
  then Raise (OverflowError "integer division result too large for a float")
  else Ok (Finite (inject_Z v / 1024)).

(** [x > 1024] on a float. *)
Definition float_gt_1024 (x : float) : bool :=
  match x with
  | Finite q => FormatSize.Qgtb q 1024
  | Inf false => true
  | _ => false
  end.

(** [x / 1024] on a float; exact on the finite values the loop divides,
    which are above 1024. *)
Definition float_div_1024 (x : float) : float :=
  match x with
  | Finite q => Finite (q / 1024)
  | other => other
  end.

(** [f"{x:.2f}"] on a float. *)
Definition float_2f (x : float) : string :=
  match x with
  | Finite q => FormatSize.format_2f q
  | NegZero => "-0.00"
  | Inf false => "inf"
  | Inf true => "-inf"
  | NaN => "nan"
  end.

(** The two loop variables. *)
Record state : Type := mkState { size : number; unit : nat }.

(** [size > 1024 and unit < len(units) - 1] *)
Definition cond (st : state) : bool :=
  match size st with
  | Int n => (1024 <? n)%Z
  | Float x => float_gt_1024 x
  end
  && (unit st <? List.length FormatSize.units - 1)%nat.

(** [size /= 1024; unit += 1] *)
Definition body (st : state) : result state :=
  match size st with
  | Int n =>
      x ← int_truediv_1024 n;
      mret {| size := Float x; unit := S (unit st) |}
  | Float x =>
      mret {| size := Float (float_div_1024 x); unit := S (unit st) |}
  end.

(** The [while] loop; [None] when the fuel runs out before the loop is
    left, by its condition or by an exception. *)
Fixpoint while (fuel : nat) (st : state) : option (result state) :=
  if cond st then
    match fuel with
    | O => None
    | S fuel' =>
        match body st with
        | Ok st' => while fuel' st'
        | Raise e => Some (Raise e)
        end
    end
  else Some (Ok st).

(** [f"{size:.2f} {units[unit]}"] *)
Definition render (st : state) : result string :=
  text ← match size st with
         | Int n => x ← float_of_int n; mret (float_2f x)
         | Float x => mret (float_2f x)
         end;
  match nth_error FormatSize.units (unit st) with
  | Some u => Ok (text ++ " " ++ u)
  | None => Raise (IndexError "list index out of range")
  end.

Definition init (size_in_bytes : number) : state :=
  {| size := size_in_bytes; unit := 0 |}.

Definition format_size_fuel (fuel : nat) (size_in_bytes : number)
  : option (result string) :=
  match while fuel (init size_in_bytes) with
  | Some (Ok st) => Some (render st)
  | Some (Raise e) => Some (Raise e)
  | None => None
  end.

(** [format_size(size_in_bytes)]: [None] stands for a loop that is not left
    within the fuel, which does not occur. *)
Definition format_size (size_in_bytes : number) : option (result string) :=
  format_size_fuel (List.length FormatSize.units) size_in_bytes.

(** An int is within the float range when the conversion it meets does not
    overflow: [float(n)] for an int that is not promoted, [n / 1024] for
    one that is. *)
Definition int_in_range (n : Z) : bool :=
  if (1024 <? n)%Z
  then (Z.abs (round53 n) <? 2 ^ 1034)%Z
  else (Z.abs (round53 n) <? 2 ^ 1024)%Z.

Definition in_range (v : number) : bool :=
  match v with
  | Int n => int_in_range n
  | Float _ => true
  end.

(** The sign bit. *)
Definition negative (v : number) : bool :=
  match v with
  | Int n => (n <? 0)%Z
  | Float (Finite q) => FormatSize.Qgtb 0 q
  | Float NegZero => true
  | Float (Inf s) => s
  | Float NaN => false
  end.

(** The float value of an int or a finite float. *)
Definition value (v : number) : option Q :=
  match v with
  | Int n => Some (inject_Z (round53 n))
  | Float (Finite q) => Some q
  | Float _ => None
  end.

End Number.

(** ** The table and the pandas operations the script calls

    [data.seattle_weather()] has a fixed schema: a datetime column [date]
    holding midnight timestamps (modelled as day numbers), four float
    columns and the string column [weather].  A row also carries its index
    label, which boolean indexing keeps. *)

Module Frame.

Section Rows.

(** binary64 cells, NaN included *)
Variable float : Type.

Record Row : Type := mkRow {
  label : Z;
  date : Z;
  precipitation : float;
  temp_max : float;
  temp_min : float;
  wind : float;
  weather : string
}.

Definition DataFrame : Type := list Row.

(** [frame.columns]: the schema is that of the row type. *)
Definition columns (frame : DataFrame) : list string :=
  ["date"; "precipitation"; "temp_max"; "temp_min"; "wind"; "weather"].

(** [Series.isin(values)]: the boolean mask of membership, element by
    element. *)
Definition isin_value (values : list string) (x : string) : bool :=
  existsb (String.eqb x) values.

Definition isin (s : list string) (values : list string) : list bool :=
  map (isin_value values) s.

(** [Series.between(left, right)], both ends inclusive. *)
Definition between_value (left right : Z) (x : Z) : bool :=
  (left <=? x)%Z && (x <=? right)%Z.

Definition between (s : list Z) (left right : Z) : list bool :=
  map (between_value left right) s.

(** [frame[mask]]: the rows whose mask entry is [True], in order, labels
    kept; a mask of another length raises [ValueError]. *)
Fixpoint select (frame : DataFrame) (mask : list bool) : option DataFrame :=
  match frame, mask with
  | [], [] => Some []
  | r :: frame', b :: mask' =>
      match select frame' mask' with
      | Some kept => Some (if b then r :: kept else kept)
      | None => None
      end
  | _, _ => None
  end.

Definition getitem_mask (frame : DataFrame) (mask : list bool)
  : result DataFrame :=
  match select frame mask with
  | Some kept => Ok kept
  | None => Raise (ValueError "Item wrong length")
  end.

(** Line 44: [df = source[source["weather"].isin(selection)]] *)
Definition df (source : DataFrame) (selection : list string)
  : result DataFrame :=
  getitem_mask source (isin (map weather source) selection).

(** A pandas timestamp: [NaT] or a day. *)
Inductive timestamp : Type :=
| NaT
| Timestamp (day : Z).

(** [Series.min()] and [Series.max()] of a datetime column: [NaT] on an
    empty column. *)
Definition series_min (s : list Z) : timestamp :=
  match s with
  | [] => NaT
  | x :: rest => Timestamp (fold_left Z.min rest x)
  end.

Definition series_max (s : list Z) : timestamp :=
  match s with
  | [] => NaT
  | x :: rest => Timestamp (fold_left Z.max rest x)
  end.

(** [.date()]: the calendar day of a timestamp; [NaT.date()] is [NaT]. *)
Definition to_date (t : timestamp) : timestamp := t.

(** [st.date_input(label, value=, min_value=, max_value=)].  The widget
    formats its three dates with [strftime], which raises [ValueError] on
    [NaT]; otherwise it returns the date picked by the user, [value] when
    none was picked. *)
Definition date_input (value min_value max_value : timestamp)
    (picked : option Z) : result Z :=
  match value, min_value, max_value with
  | Timestamp v, Timestamp _, Timestamp _ =>
      Ok (match picked with Some d => d | None => v end)
  | _, _, _ => Raise (ValueError "NaTType does not support timetuple")
  end.

(** Lines 48 to 53: the start date, bounded by the dates of [df]. *)
Definition start (frame : DataFrame) (picked : option Z) : result Z :=
  date_input (to_date (series_min (map date frame)))
             (to_date (series_min (map date frame)))
             (to_date (series_max (map date frame)))
             picked.

(** Lines 56 to 61: the end date. *)
Definition end_ (frame : DataFrame) (picked : option Z) : result Z :=
  date_input (to_date (series_max (map date frame)))
             (to_date (series_min (map date frame)))
             (to_date (series_max (map date frame)))
             picked.

(** Lines 63 to 69: the disabled range widget hands [(start, end)] on and
    [pd.to_datetime] turns the two days into midnight timestamps. *)
Definition date_range (start_day end_day : Z) : Z * Z := (start_day, end_day).

(** Line 70: [filtered_df = df[df["date"].between(start_date, end_date)]] *)
Definition filtered_df (frame : DataFrame) (start_date end_date : Z)
  : result DataFrame :=
  getitem_mask frame (between (map date frame) start_date end_date).

(** The filter as a function of its criteria: line 44, then line 70. *)
Definition two_stage_filter (source : DataFrame) (selection : list string)
    (start_date end_date : Z) : result DataFrame :=
  frame ← df source selection;
  filtered_df frame start_date end_date.

(** Lines 44 to 70 as the script runs them, dates coming from the
    widgets. *)
Definition filter_section (source : DataFrame) (selection : list string)
    (picked_start picked_end : option Z) : result DataFrame :=
  frame ← df source selection;
  start_day ← start frame picked_start;
  end_day ← end_ frame picked_end;
  let '(start_date, end_date) := date_range start_day end_day in
  filtered_df frame start_date end_date.

(** The filter as the specification words it: one pass keeping the rows
    with [row.category ∈ categories AND start ≤ row.date ≤ end]. *)
Definition spec_filter (table : DataFrame) (categories : list string)
    (start_date end_date : Z) : DataFrame :=
  filter (B := list Row)
    (fun row => weather row ∈ categories
                /\ (start_date <= date row <= end_date)%Z) table.

End Rows.

Arguments mkRow {float} _ _ _ _ _ _ _.
Arguments label {float} _.
Arguments date {float} _.
Arguments precipitation {float} _.
Arguments temp_max {float} _.
Arguments temp_min {float} _.
Arguments wind {float} _.
Arguments weather {float} _.
Arguments columns {float} _.
Arguments select {float} _ _.
Arguments getitem_mask {float} _ _.
Arguments df {float} _ _.
Arguments start {float} _ _.
Arguments end_ {float} _ _.
Arguments filtered_df {float} _ _ _.
Arguments two_stage_filter {float} _ _ _ _.
Arguments filter_section {float} _ _ _ _.
Arguments spec_filter {float} _ _ _ _.

End Frame.

(** ** CSV export

    [DataFrame.to_csv] writes one line of column names and one line per row,
    fields joined by commas.  With [index=True], the default, every line
    starts with one more field: the index name (empty here) in the header,
    the row's label below.  How a float is printed, how the [csv] writer
    quotes a field and which line terminator the platform has are left to
    the [Dialect]. *)

Module Csv.

Import Frame.

Record Dialect (float : Type) : Type := mkDialect {
  float_repr : float -> string;
  csv_field : string -> string;
  lineterminator : string
}.

Arguments float_repr {float} _ _.
Arguments csv_field {float} _ _.
Arguments lineterminator {float} _.

Definition pad2 (n : Z) : string :=
  String (FormatSize.digit ((n / 10) mod 10))
    (String (FormatSize.digit (n mod 10)) "").

Definition pad4 (n : Z) : string := pad2 (n / 100) ++ pad2 (n mod 100).

(** Year, month and day of a day number counted from 1970-01-01. *)
Definition civil_from_days (z : Z) : Z * Z * Z :=
  let z := (z + 719468)%Z in
  let era := (z / 146097)%Z in
  let doe := (z - era * 146097)%Z in
  let yoe := ((doe - doe / 1460 + doe / 36524 - doe / 146096) / 365)%Z in
  let doy := (doe - (365 * yoe + yoe / 4 - yoe / 100))%Z in
  let mp := ((5 * doy + 2) / 153)%Z in
  let d := (doy - (153 * mp + 2) / 5 + 1)%Z in
  let m := (if (mp <? 10)%Z then mp + 3 else mp - 9)%Z in
  let y := (yoe + era * 400 + (if (m <=? 2)%Z then 1 else 0))%Z in
  (y, m, d).

(** A midnight timestamp is written as its ISO calendar date. *)
Definition date_repr (day : Z) : string :=
  let '(y, m, d) := civil_from_days day in
  pad4 y ++ "-" ++ pad2 m ++ "-" ++ pad2 d.

Section Writer.

Context {float : Type} (dialect : Dialect float).

Definition line (fields : list string) : string :=
  Text.join "," (map (csv_field dialect) fields) ++ lineterminator dialect.

Definition row_fields (r : Row float) : list string :=
  [date_repr (date r);
   float_repr dialect (precipitation r);
   float_repr dialect (temp_max r);
   float_repr dialect (temp_min r);
   float_repr dialect (wind r);
   weather r].

Definition header_line (index : bool) (frame : DataFrame float) : string :=
  line ((if index then [""] else []) ++ columns frame)%list.

Definition row_line (index : bool) (r : Row float) : string :=
  line ((if index then [Text.str_of_Z (label r)] else []) ++ row_fields r)%list.

(** [frame.to_csv(index=...)] as text. *)
Definition to_csv (index : bool) (frame : DataFrame float) : string :=
  header_line index frame ++ String.concat "" (map (row_line index) frame).

(** Lines 11 to 13: [df.to_csv().encode("utf-8")] *)
Definition convert_for_download (df : DataFrame float) : list N :=
  Text.encode_utf8 (to_csv true df).

End Writer.

End Csv.

(** ** [io.StringIO]

    The script only writes at the end of a fresh buffer; [tell] is the
    position, counted in characters. *)

Module StringIO.

Record t : Type := mkBuffer { getvalue : string; pos : nat }.

Definition new : t := {| getvalue := ""; pos := 0 |}.

Definition write (buffer : t) (s : string) : t :=
  {| getvalue := getvalue buffer ++ s; pos := pos buffer + Text.len s |}.

Definition tell (buffer : t) : nat := pos buffer.

End StringIO.

(** ** [DataFrame.describe]

    The summary of the float columns.  The arithmetic is pandas' own, in
    binary64, and stays abstract in [Kernels]; what is modelled is the count
    of non-missing cells and the guards that answer NaN without calling the
    arithmetic: no value at all, or fewer than two for the standard
    deviation. *)

Module Describe.

Import Frame.

Record Kernels (float : Type) : Type := mkKernels {
  nan : float;
  isnan : float -> bool;
  nanmean : list float -> float;
  nanstd : list float -> float;
  nanmin : list float -> float;
  nanmax : list float -> float;
  quantile : Q -> list float -> float
}.

Arguments nan {float} _.
Arguments isnan {float} _ _.
Arguments nanmean {float} _ _.
Arguments nanstd {float} _ _.
Arguments nanmin {float} _ _.
Arguments nanmax {float} _ _.
Arguments quantile {float} _ _ _.

Record Stats (float : Type) : Type := mkStats {
  count : nat;
  mean : float;
  std : float;
  min : float;
  q25 : float;
  q50 : float;
  q75 : float;
  max : float
}.

Arguments mkStats {float} _ _ _ _ _ _ _ _.
Arguments count {float} _.
Arguments mean {float} _.
Arguments std {float} _.
Arguments min {float} _.
Arguments q25 {float} _.
Arguments q50 {float} _.
Arguments q75 {float} _.
Arguments max {float} _.

Section Summary.

Context {float : Type} (K : Kernels float).

Definition dropna (s : list float) : list float :=
  List.filter (fun x => negb (isnan K x)) s.

Definition describe_1d (s : list float) : Stats float :=
  let xs := dropna s in
  let n := List.length xs in
  let guarded (least : nat) (f : list float -> float) :=
    if (n <? least)%nat then nan K else f xs in
  {| count := n;
     mean := guarded 1%nat (nanmean K);
     std := guarded 2%nat (nanstd K);
     min := guarded 1%nat (nanmin K);
     q25 := guarded 1%nat (quantile K (1 # 4));
     q50 := guarded 1%nat (quantile K (1 # 2));
     q75 := guarded 1%nat (quantile K (3 # 4));
     max := guarded 1%nat (nanmax K) |}.

(** [frame.describe()]: one entry per float column.  (pandas 2 adds the
    [date] column, summarised the same way with [NaT] for NaN.) *)
Definition describe (frame : DataFrame float) : list (string * Stats float) :=
  [("precipitation", describe_1d (map precipitation frame));
   ("temp_max", describe_1d (map temp_max frame));
   ("temp_min", describe_1d (map temp_min frame));
   ("wind", describe_1d (map wind frame))].

End Summary.

End Describe.

(** ** The script *)

Module App.

Import Frame Csv Describe.

Section Script.

Context {float : Type} (dialect : Dialect float) (K : Kernels float).

(** Lines 160 to 162 and 178 to 180:
    [buffer = io.StringIO(); frame.to_csv(buffer, index=False);
    csv_size_bytes = buffer.tell()] *)
Definition csv_size_bytes (frame : DataFrame float) : nat :=
  let buffer := StringIO.new in
  let buffer := StringIO.write buffer (to_csv dialect false frame) in
  StringIO.tell buffer.

(** Lines 163 and 181 *)
Definition formatted_size (frame : DataFrame float) : option string :=
  FormatSize.format_size (inject_Z (Z.of_nat (csv_size_bytes frame))).

(** What one run puts on the page. *)
Record Page : Type := mkPage {
  chart_data : DataFrame float;
  summary_source : list (string * Stats float);
  summary_filtered : list (string * Stats float);
  source_csv : list N;
  filtered_csv : list N;
  source_size : option string;
  filtered_size : option string
}.

(** One run, top to bottom: the widgets' state is [selection] and the two
    picked dates.  Lines 44 to 70 filter, lines 146 and 149 describe the
    source and the filtered table, lines 151 and 152 convert both for
    download, lines 160 to 163 and 178 to 181 size both. *)
Definition script (source : DataFrame float) (selection : list string)
    (picked_start picked_end : option Z) : result Page :=
  filtered ← filter_section source selection picked_start picked_end;
  mret {| chart_data := filtered;
          summary_source := describe K source;
          summary_filtered := describe K filtered;
          source_csv := convert_for_download dialect source;
          filtered_csv := convert_for_download dialect filtered;
          source_size := formatted_size source;
          filtered_size := formatted_size filtered |}.

End Script.

End App.

(** ** Sample data

    The three rows of the specification's end-to-end scenario, with floats
    given in tenths and printed the way Python prints such a float. *)

Module Sample.

Import Frame Csv.

Definition LF : string := String (ascii_of_nat 10) "".

Definition tenths_repr (x : Z) : string :=
  (if (x <? 0)%Z then "-" else "")
  ++ Text.str_of_nonneg (Z.abs x / 10)
  ++ "."
  ++ String (FormatSize.digit (Z.abs x mod 10)) "".

Definition plain : Dialect Z :=
  {| float_repr := tenths_repr;
     csv_field := fun s => s;
     lineterminator := LF |}.

Local Open Scope Z_scope.

Definition scenario : DataFrame Z :=
  [ mkRow 0 15340 0 100 50 30 "drizzle";
    mkRow 1 15341 109 80 28 45 "rain";
    mkRow 2 15342 0 150 72 23 "sun" ].

Definition one_row : DataFrame Z := [ mkRow 0 15340 0 128 50 47 "drizzle" ].

End Sample.

(** ** Shapes of the printed text *)

Module Shape.

Definition all_digits (s : string) : Prop :=
  s <> "" /\ Forall Text.is_digit (list_ascii_of_string s).

(** An optional minus sign, digits, a point, two digits. *)
Definition two_fraction_digits (s : string) : Prop :=
  exists sign whole d1 d2,
    s = sign ++ whole ++ "." ++ String d1 (String d2 "")
    /\ (sign = "" \/ sign = "-")
    /\ all_digits whole
    /\ Text.is_digit d1 /\ Text.is_digit d2.

(** The text of [c] hundredths: a minus sign when the value is negative,
    the whole part, a point and the two digits of the hundredths. *)
Definition hundredths_text (negative : bool) (c : Z) : string :=
  (if negative then "-" else "")
  ++ Text.str_of_nonneg (Z.abs c / 100)
  ++ "."
  ++ String (FormatSize.digit ((Z.abs c / 10) mod 10))
       (String (FormatSize.digit (Z.abs c mod 10)) "").

(** [c] is an integer nearest to [x], the even one of two. *)
Definition nearest_even (c : Z) (x : Q) : Prop :=
  (Qabs (inject_Z c - x) <= 1 # 2)%Q
  /\ ((Qabs (inject_Z c - x) == 1 # 2)%Q -> Z.even c = true).

End Shape.

(** ** The category control *)

Module Controls.

(** Line 38: the categories offered by the segmented control, all selected
    by default. *)
Definition options : list string := ["sun"; "fog"; "drizzle"; "rain"; "snow"].

End Controls.

(** ** Measuring the index column *)

Module Measure.

Import Frame Csv.

(** The characters the index column adds to the text: one field and one
    comma on every line. *)
Definition index_chars {float : Type} (dialect : Dialect float)
    (frame : DataFrame float) : nat :=
  (Text.len (csv_field dialect "") + 1
   + list_sum
       (map (fun r =>
               Text.len (csv_field dialect (Text.str_of_Z (label r))) + 1)
          frame))%nat.

End Measure.

(** * Properties of [format_size] *)

Section FormatSizeFacts.

Import FormatSize.

Lemma Qgtb_true (a b : Q) : Qgtb a b = true <-> (b < a)%Q.
Proof.
  unfold Qgtb. rewrite negb_true_iff.
  destruct (Qle_bool a b) eqn:E.
  - apply Qle_bool_iff in E. split; [discriminate | intros H; exfalso; lra].
  - split; [intros _ | reflexivity].
    apply Qnot_le_lt. intros H. apply Qle_bool_iff in H. congruence.
Qed.

Lemma Qgtb_false (a b : Q) : Qgtb a b = false <-> (a <= b)%Q.
Proof.
  unfold Qgtb. rewrite negb_false_iff. apply Qle_bool_iff.
Qed.

Lemma cond_true (st : state) :
  cond st = true <-> (1024 < size st)%Q /\ (unit st < 4)%nat.
Proof.
  unfold cond. rewrite andb_true_iff, Qgtb_true, Nat.ltb_lt. reflexivity.
Qed.

Lemma cond_false (st : state) :
  cond st = false <-> (size st <= 1024)%Q \/ (4 <= unit st)%nat.
Proof.
  unfold cond. rewrite andb_false_iff, Qgtb_false, Nat.ltb_ge. reflexivity.
Qed.

Lemma unit_iter (n : nat) (st : state) :
  unit (Nat.iter n body st) = (unit st + n)%nat.
Proof.
  induction n as [|n IH]; simpl.
  - lia.
  - rewrite IH. lia.
Qed.

Lemma size_iter (n : nat) (st : state) :
  (size (Nat.iter n body st) == size st / 1024 ^ Z.of_nat n)%Q.
Proof.
  induction n as [|n IH].
  - simpl. field.
  - rewrite Nat2Z.inj_succ, Nat.iter_succ. simpl size. rewrite IH.
    unfold Z.succ. rewrite Qpower_plus by discriminate. field.
    apply Qpower_not_0. discriminate.
Qed.

(** The loop leaves after at most [4 - unit] rounds, whatever the value:
    every round raises [unit] by one and the condition needs [unit < 4]. *)
Lemma while_exits (fuel : nat) : forall st : state,
  (4 - unit st <= fuel)%nat ->
  exists n : nat,
    (n <= 4 - unit st)%nat
    /\ while fuel st = Some (Nat.iter n body st)
    /\ cond (Nat.iter n body st) = false
    /\ forall m : nat, (m < n)%nat -> cond (Nat.iter m body st) = true.
Proof.
  induction fuel as [|fuel IH]; intros st Hfuel.
  - exists 0%nat. simpl.
    assert (Hc : cond st = false) by (apply cond_false; right; lia).
    rewrite Hc. split; [lia|]. split; [reflexivity|].
    split; [reflexivity | intros m Hm; lia].
  - destruct (cond st) eqn:Hc.
    + pose proof (proj1 (cond_true st) Hc) as [_ Hu].
      destruct (IH (body st)) as (n & Hn & Hrun & Hstop & Hbefore).
      { simpl. lia. }
      exists (S n). rewrite Nat.iter_succ_r. simpl while. rewrite Hc.
      split; [simpl in Hn; lia|]. split; [assumption|].
      split; [assumption|].
      intros [|m] Hm; [exact Hc|].
      rewrite Nat.iter_succ_r. apply Hbefore. lia.
    + exists 0%nat. simpl. rewrite Hc.
      split; [lia|]. split; [reflexivity|].
      split; [reflexivity | intros m Hm; lia].
Qed.

(** More fuel does not change the state the loop exits in. *)
Lemma while_more_fuel (fuel fuel' : nat) : forall st st' : state,
  while fuel st = Some st' -> (fuel <= fuel')%nat -> while fuel' st = Some st'.
Proof.
  revert fuel'. induction fuel as [|fuel IH]; intros fuel' st st' Hrun Hle.
  - simpl in Hrun. destruct (cond st) eqn:Hc; [discriminate|].
    destruct fuel'; simpl; rewrite Hc; exact Hrun.
  - destruct fuel' as [|fuel']; [lia|].
    simpl in *. destruct (cond st); [|exact Hrun].
    apply IH; [exact Hrun | lia].
Qed.

Lemma units_lookup (n : nat) :
  (n <= 4)%nat ->
  exists u, nth_error units n = Some u
            /\ In u ["B"; "KB"; "MB"; "GB"; "TB"].
Proof.
  intros Hn.
  destruct n as [|[|[|[|[|n]]]]]; try lia; simpl; eexists; split;
    try reflexivity; simpl; tauto.
Qed.

(** *** Digits *)

Lemma digit_is_digit (n : Z) : (0 <= n <= 9)%Z -> Text.is_digit (digit n).
Proof.
  intros Hn. unfold Text.is_digit, digit.
  rewrite nat_ascii_embedding by lia. lia.
Qed.

Lemma string_of_uint_digits (d : Decimal.uint) :
  Forall Text.is_digit (list_ascii_of_string (NilEmpty.string_of_uint d)).
Proof.
  induction d; simpl; constructor; try assumption;
    unfold Text.is_digit; vm_compute; lia.
Qed.

Lemma str_of_nonneg_digits (n : Z) : Shape.all_digits (Text.str_of_nonneg n).
Proof.
  unfold Shape.all_digits, Text.str_of_nonneg, NilZero.string_of_uint.
  destruct (N.to_uint (Z.to_N n)) eqn:E;
    try (split; [simpl; discriminate | apply string_of_uint_digits]).
  split; [discriminate|].
  simpl. constructor; [unfold Text.is_digit; vm_compute; lia | constructor].
Qed.

Lemma format_2f_shape (q : Q) : Shape.two_fraction_digits (format_2f q).
Proof.
  unfold Shape.two_fraction_digits, format_2f.
  set (c := Z.abs (round_half_even (q * 100))).
  assert (Hc : (0 <= c)%Z) by apply Z.abs_nonneg.
  exists (if Qgtb 0 q then "-" else ""), (Text.str_of_nonneg (c / 100)),
    (digit ((c / 10) mod 10)), (digit (c mod 10)).
  split; [reflexivity|].
  split; [destruct (Qgtb 0 q); auto|].
  split; [apply str_of_nonneg_digits|].
  split; apply digit_is_digit.
  - pose proof (Z.mod_pos_bound (c / 10) 10). lia.
  - pose proof (Z.mod_pos_bound c 10). lia.
Qed.

End FormatSizeFacts.

Section FormatSizeClaims.

Import FormatSize.

Lemma after_unit (n : nat) (q : Q) : unit (after n q) = n.
Proof. unfold after. rewrite unit_iter. reflexivity. Qed.

(** What [format_size] returns, in terms of the number of rounds: the same
    for every amount of fuel from four on. *)
Lemma format_size_rounds (q : Q) :
  exists (n : nat) (u : string),
    (n <= 4)%nat
    /\ cond (after n q) = false
    /\ (forall m : nat, (m < n)%nat -> cond (after m q) = true)
    /\ nth_error units n = Some u
    /\ In u ["B"; "KB"; "MB"; "GB"; "TB"]
    /\ forall fuel : nat, (4 <= fuel)%nat ->
         while fuel (init q) = Some (after n q)
         /\ format_size_fuel fuel q
            = Some (format_2f (size (after n q)) ++ " " ++ u).
Proof.
  destruct (while_exits 4 (init q)) as (n & Hn & Hrun & Hstop & Hbefore).
  { simpl. lia. }
  simpl in Hn.
  destruct (units_lookup n) as (u & Hu & Hin); [lia|].
  exists n, u. fold (after n q) in Hrun, Hstop.
  split; [lia|]. split; [exact Hstop|].
  split; [exact Hbefore|]. split; [exact Hu|]. split; [exact Hin|].
  intros fuel Hfuel.
  pose proof (while_more_fuel 4 fuel _ _ Hrun Hfuel) as Hrun'.
  split; [exact Hrun'|].
  unfold format_size_fuel, render. rewrite Hrun', after_unit, Hu. reflexivity.
Qed.

(** C3. [format_size] moves to the next unit only while the value is
    strictly above 1024 and a larger unit remains: 1024 stays ["1024.00 B"],
    1025 becomes ["1.00 KB"], 0 is ["0.00 B"]; for every input, the result is
    the value after [n] divisions by 1024, printed with exactly two fraction
    digits, a space and the [n]-th unit, where every division was made on a
    value above 1024 with [n] below 4, and the loop stopped on a value of at
    most 1024 or on the last unit. *)
Theorem format_size_unit_ladder :
  format_size 1024 = Some "1024.00 B"
  /\ format_size 1025 = Some "1.00 KB"
  /\ format_size 0 = Some "0.00 B"
  /\ forall q : Q, exists (n : nat) (u : string),
       format_size q = Some (format_2f (size (after n q)) ++ " " ++ u)
       /\ nth_error units n = Some u
       /\ (size (after n q) == q / 1024 ^ Z.of_nat n)%Q
       /\ (forall m : nat, (m < n)%nat ->
             (1024 < size (after m q))%Q /\ (m < 4)%nat)
       /\ ((size (after n q) <= 1024)%Q \/ n = 4%nat)
       /\ Shape.two_fraction_digits (format_2f (size (after n q))).
Proof.
  split; [reflexivity|]. split; [reflexivity|]. split; [reflexivity|].
  intros q.
  destruct (format_size_rounds q)
    as (n & u & Hn & Hstop & Hbefore & Hu & _ & Hfuel).
  destruct (Hfuel (List.length units)) as [_ Hres]; [simpl; lia|].
  exists n, u.
  split; [exact Hres|]. split; [exact Hu|].
  split; [unfold after; rewrite size_iter; reflexivity|].
  split.
  - intros m Hm. apply Hbefore in Hm. apply cond_true in Hm.
    rewrite after_unit in Hm. exact Hm.
  - split; [|apply format_2f_shape].
    apply cond_false in Hstop. rewrite after_unit in Hstop.
    destruct Hstop as [Hle | Hge]; [left; exact Hle | right; lia].
Qed.

(** C10. With fuel for four rounds the loop of [format_size] always exits,
    in the same state whatever the fuel: each round raises the unit index by
    one and no round starts at index 4.  The suffix is one of B, KB, MB, GB,
    TB.  An input of 1024^5 or more ends on TB with a value that is not
    below 1024 (above it when the input is above 1024^5); a negative input
    makes no round and ends on B. *)
Theorem format_size_terminates (fuel : nat) (q : Q) (Hfuel : (4 <= fuel)%nat) :
  exists (n : nat) (u : string),
    (n <= 4)%nat
    /\ while fuel (init q) = Some (after n q)
    /\ cond (after n q) = false
    /\ (forall m : nat, (m < n)%nat ->
          cond (after m q) = true
          /\ unit (after (S m) q) = S (unit (after m q)))
    /\ nth_error units n = Some u
    /\ In u ["B"; "KB"; "MB"; "GB"; "TB"]
    /\ format_size_fuel fuel q = Some (format_2f (size (after n q)) ++ " " ++ u)
    /\ format_size_fuel fuel q = format_size q
    /\ ((1024 ^ 5 <= q)%Q ->
          u = "TB" /\ (1024 <= size (after n q))%Q
          /\ ((1024 ^ 5 < q)%Q -> (1024 < size (after n q))%Q))
    /\ ((q < 0)%Q -> n = 0%nat /\ u = "B").
Proof.
  destruct (format_size_rounds q)
    as (n & u & Hn & Hstop & Hbefore & Hu & Hin & Hany).
  destruct (Hany fuel Hfuel) as [Hrun Hres].
  destruct (Hany (List.length units)) as [_ Hres5]; [simpl; lia|].
  exists n, u.
  split; [exact Hn|]. split; [exact Hrun|]. split; [exact Hstop|].
  split.
  { intros m Hm. split; [apply Hbefore; exact Hm|].
    rewrite !after_unit. reflexivity. }
  split; [exact Hu|]. split; [exact Hin|]. split; [exact Hres|].
  split; [unfold format_size; rewrite Hres, Hres5; reflexivity|].
  split.
  - intros Hbig. change (1024 ^ 5)%Q with 1125899906842624%Q in *.
    assert (Hn4 : n = 4%nat).
    { apply cond_false in Hstop. rewrite after_unit in Hstop.
      destruct Hstop as [Hle | Hge]; [|lia].
      destruct n as [|[|[|[|[|n]]]]]; [| | | |reflexivity|lia];
        exfalso; simpl in Hle; unfold Qdiv in Hle;
        change (/ 1024)%Q with (1 # 1024)%Q in Hle; lra. }
    subst n. simpl in Hu. injection Hu as <-.
    split; [reflexivity|]. simpl.
    unfold Qdiv. change (/ 1024)%Q with (1 # 1024)%Q.
    split; [lra | intros Hgt; lra].
  - intros Hneg.
    assert (Hn0 : n = 0%nat).
    { destruct n as [|n]; [reflexivity|]. exfalso.
      assert (Hc : cond (after 0 q) = true) by (apply Hbefore; lia).
      apply cond_true in Hc. simpl in Hc. lra. }
    subst n. simpl in Hu. injection Hu as <-. split; reflexivity.
Qed.

Lemma format_size_terminates_witness :
  (4 <= 4)%nat
  /\ exists (n : nat) (u : string),
       while 4 (init 1025) = Some (after n 1025)
       /\ cond (after n 1025) = false
       /\ format_size_fuel 4 1025
          = Some (format_2f (size (after n 1025)) ++ " " ++ u).
Proof.
  split; [lia|].
  destruct (format_size_terminates 4 1025 (le_n 4))
    as (n & u & _ & Hrun & Hstop & _ & _ & _ & Hres & _).
  exists n, u. split; [exact Hrun|]. split; [exact Hstop | exact Hres].
Defined.

End FormatSizeClaims.


(** * Properties of the filter *)

Section FilterFacts.

Import Frame.

Context {float : Type}.

Implicit Types (frame T : DataFrame float) (r : Row float).

Lemma select_map (p : Row float -> bool) frame :
  select frame (map p frame) = Some (List.filter p frame).
Proof.
  induction frame as [|r frame IH]; simpl; [reflexivity|].
  rewrite IH. reflexivity.
Qed.

(** A mask computed row by row from the frame it indexes always fits. *)
Lemma getitem_mask_map (p : Row float -> bool) frame :
  getitem_mask frame (map p frame) = Ok (List.filter p frame).
Proof. unfold getitem_mask. rewrite select_map. reflexivity. Qed.

Lemma df_ok T (C : list string) :
  df T C = Ok (List.filter (fun r => isin_value C (weather r)) T).
Proof. unfold df, isin. rewrite map_map. apply getitem_mask_map. Qed.

Lemma filtered_df_ok frame (s e : Z) :
  filtered_df frame s e
  = Ok (List.filter (fun r => between_value s e (date r)) frame).
Proof.
  unfold filtered_df, between. rewrite map_map. apply getitem_mask_map.
Qed.

Lemma filter_filter {A : Type} (p q : A -> bool) (l : list A) :
  List.filter q (List.filter p l) = List.filter (fun x => p x && q x) l.
Proof.
  induction l as [|x l IH]; simpl; [reflexivity|].
  destruct (p x); simpl; [destruct (q x)|]; rewrite IH; reflexivity.
Qed.

(** The two stages are one pass with the conjunction of the two masks. *)
Lemma two_stage_filter_ok T (C : list string) (s e : Z) :
  two_stage_filter T C s e
  = Ok (List.filter
          (fun r => isin_value C (weather r) && between_value s e (date r)) T).
Proof.
  unfold two_stage_filter. rewrite df_ok. simpl.
  rewrite filtered_df_ok, filter_filter. reflexivity.
Qed.

Lemma isin_value_In (C : list string) (x : string) :
  isin_value C x = true <-> In x C.
Proof.
  unfold isin_value. rewrite existsb_exists. split.
  - intros (y & Hy & Heq). apply String.eqb_eq in Heq. subst. exact Hy.
  - intros H. exists x. split; [exact H | apply String.eqb_refl].
Qed.

Lemma between_value_iff (s e x : Z) :
  between_value s e x = true <-> (s <= x <= e)%Z.
Proof. unfold between_value. rewrite andb_true_iff, !Z.leb_le. reflexivity. Qed.

Lemma masks_iff (C : list string) (s e : Z) r :
  isin_value C (weather r) && between_value s e (date r) = true
  <-> In (weather r) C /\ (s <= date r <= e)%Z.
Proof.
  rewrite andb_true_iff, isin_value_In, between_value_iff. reflexivity.
Qed.

Lemma between_value_inverted (s e x : Z) :
  (e < s)%Z -> between_value s e x = false.
Proof.
  intros Hinv. unfold between_value. apply andb_false_iff.
  rewrite !Z.leb_gt. lia.
Qed.

Lemma filter_sublist {A : Type} (p : A -> bool) (l : list A) :
  sublist (List.filter p l) l.
Proof.
  induction l as [|x l IH]; simpl; [constructor|].
  destruct (p x); constructor; exact IH.
Qed.

Lemma filter_keeps_occurrence {A : Type} (p : A -> bool) (l1 l2 : list A)
    (x : A) :
  p x = true ->
  List.filter p (l1 ++ x :: l2)%list
  = (List.filter p l1 ++ x :: List.filter p l2)%list.
Proof. intros Hp. rewrite List.filter_app. simpl. rewrite Hp. reflexivity. Qed.

(** The specification's filter, computed with the two masks. *)
Lemma spec_filter_masks T (C : list string) (s e : Z) :
  spec_filter T C s e
  = List.filter
      (fun r => isin_value C (weather r) && between_value s e (date r)) T.
Proof.
  unfold spec_filter.
  induction T as [|r T IH]; [reflexivity|].
  rewrite filter_cons, IH. simpl.
  destruct (isin_value C (weather r) && between_value s e (date r)) eqn:Hm.
  - apply masks_iff in Hm. rewrite <- list_elem_of_In in Hm.
    destruct (decide _) as [_ | Hno]; [reflexivity | tauto].
  - destruct (decide _) as [Hyes | _]; [|reflexivity].
    rewrite list_elem_of_In in Hyes. apply masks_iff in Hyes. congruence.
Qed.

(** When the widgets accept their bounds, lines 44 to 70 are the two-stage
    filter at the dates they return. *)
Lemma filter_section_two_stage T (C : list string)
    (picked_start picked_end : option Z) (R : DataFrame float) :
  filter_section T C picked_start picked_end = Ok R ->
  exists s e : Z, two_stage_filter T C s e = Ok R.
Proof.
  unfold filter_section, two_stage_filter. rewrite df_ok. simpl.
  destruct (List.filter _ T) as [|r frame] eqn:Hdf; simpl; [discriminate|].
  intros H. eauto.
Qed.

Lemma df_nothing T : df T [] = Ok [].
Proof.
  rewrite df_ok. f_equal.
  induction T as [|r T IH]; simpl; [reflexivity | exact IH].
Qed.

End FilterFacts.

Section FilterClaims.

Import Frame.

Context {float : Type}.

Implicit Types (T : DataFrame float) (r : Row float) (C : list string).

(** C2. For every table, category set and inclusive date interval the
    filter returns, without raising, exactly the rows whose category is
    accepted and whose date lies in the interval: a row is in the result if
    and only if it is such a row of the table, every occurrence of such a
    row is kept at its place, the result is a subsequence of the table (same
    rows, same relative order) and has the table's columns. *)
Theorem filter_inclusion_subset T C (s e : Z) :
  exists R : DataFrame float,
    two_stage_filter T C s e = Ok R
    /\ (forall r, In r R <-> In r T /\ In (weather r) C /\ (s <= date r <= e)%Z)
    /\ (forall (before : list (Row float)) r (behind : list (Row float)),
          T = (before ++ r :: behind)%list ->
          In (weather r) C -> (s <= date r <= e)%Z ->
          exists kept_before kept_behind : list (Row float),
            R = (kept_before ++ r :: kept_behind)%list
            /\ sublist kept_before before /\ sublist kept_behind behind)
    /\ sublist R T
    /\ columns R = columns T.
Proof.
  eexists. split; [apply two_stage_filter_ok|].
  set (keep := fun r => isin_value C (weather r) && between_value s e (date r)).
  split.
  { intros r. rewrite filter_In. unfold keep. rewrite masks_iff. reflexivity. }
  split.
  { intros before r behind -> HC Hd.
    exists (List.filter keep before), (List.filter keep behind).
    split; [|split; apply filter_sublist].
    apply filter_keeps_occurrence. apply masks_iff. split; assumption. }
  split; [apply filter_sublist | reflexivity].
Qed.

(** C8. A date interval whose start is after its end gives the empty table,
    and no exception. *)
Theorem inverted_interval_gives_empty T C (s e : Z) (Hinv : (e < s)%Z) :
  two_stage_filter T C s e = Ok [].
Proof.
  rewrite two_stage_filter_ok. f_equal.
  induction T as [|r T IH]; simpl; [reflexivity|].
  rewrite (between_value_inverted s e (date r) Hinv), andb_false_r.
  exact IH.
Qed.

(** C9. The script's two stages, categories first and dates second, return
    what the specification's single pass over the conjunction returns, for
    every table, category set and pair of dates, ordered or not; and the two
    stages can be swapped. *)
Theorem two_stage_filter_is_single_pass T C (s e : Z) :
  two_stage_filter T C s e = Ok (spec_filter T C s e)
  /\ (frame ← filtered_df T s e; df frame C) = two_stage_filter T C s e.
Proof.
  split.
  - rewrite two_stage_filter_ok, spec_filter_masks. reflexivity.
  - rewrite two_stage_filter_ok, filtered_df_ok. simpl.
    rewrite df_ok, filter_filter. f_equal.
    apply filter_ext. intros r. apply andb_comm.
Qed.

(** C5. With no category selected the category stage returns the empty
    table without raising, but the date bounds derived from it are [NaT],
    the first date widget raises on them, and the run ends there: neither
    the summary nor the export of the filtered table is reached. *)
Theorem empty_selection_stops_at_date_widget
    (dialect : Csv.Dialect float) (K : Describe.Kernels float)
    T (picked_start picked_end : option Z) :
  df T [] = Ok []
  /\ to_date (series_min (map date ([] : DataFrame float))) = NaT
  /\ to_date (series_max (map date ([] : DataFrame float))) = NaT
  /\ start ([] : DataFrame float) picked_start
     = Raise (ValueError "NaTType does not support timetuple")
  /\ filter_section T [] picked_start picked_end
     = Raise (ValueError "NaTType does not support timetuple")
  /\ App.script dialect K T [] picked_start picked_end
     = Raise (ValueError "NaTType does not support timetuple").
Proof.
  assert (Hsec : filter_section T [] picked_start picked_end
                 = Raise (ValueError "NaTType does not support timetuple")).
  { unfold filter_section. rewrite df_nothing. reflexivity. }
  split; [apply df_nothing|].
  split; [reflexivity|]. split; [reflexivity|]. split; [reflexivity|].
  split; [exact Hsec|].
  unfold App.script. rewrite Hsec. reflexivity.
Qed.

End FilterClaims.

Lemma inverted_interval_gives_empty_witness :
  (15340 < 15342)%Z
  /\ Frame.two_stage_filter Sample.scenario ["sun"; "rain"] 15342 15340 = Ok [].
Proof.
  split; [lia|].
  apply (inverted_interval_gives_empty Sample.scenario ["sun"; "rain"]
           15342 15340).
  lia.
Defined.

(** * Properties of the summary *)

Section DescribeClaims.

Import Frame Describe.

Context {float : Type} (K : Kernels float).

(** The count is the number of cells that are not NaN, and with fewer than
    two of them the standard deviation is NaN. *)
Lemma describe_1d_guards (s : list float) :
  count (describe_1d K s) = List.length (dropna K s)
  /\ ((List.length (dropna K s) < 2)%nat -> std (describe_1d K s) = nan K).
Proof.
  split; [reflexivity|]. intros Hlt. unfold describe_1d. simpl.
  apply Nat.ltb_lt in Hlt. rewrite Hlt. reflexivity.
Qed.

(** C7. Describing a table with no row raises nothing and gives, for every
    summarised column, the count 0 and NaN for every other aggregate. *)
Theorem describe_zero_rows :
  map fst (describe K []) = ["precipitation"; "temp_max"; "temp_min"; "wind"]
  /\ forall (name : string) (st : Stats float),
       In (name, st) (describe K []) ->
       count st = 0%nat
       /\ mean st = nan K /\ std st = nan K
       /\ min st = nan K /\ q25 st = nan K /\ q50 st = nan K
       /\ q75 st = nan K /\ max st = nan K.
Proof.
  split; [reflexivity|].
  intros name st Hin. simpl in Hin.
  destruct Hin as [H | [H | [H | [H | []]]]];
    injection H as _ <-; repeat split.
Qed.

End DescribeClaims.

(** * Properties of the CSV export *)

Section TextFacts.

Import Text.

Lemma append_assoc (a b c : string) : (a ++ b) ++ c = a ++ (b ++ c).
Proof.
  induction a as [|x a IH]; simpl; [reflexivity | rewrite IH; reflexivity].
Qed.

Lemma append_empty_r (a : string) : a ++ "" = a.
Proof.
  induction a as [|x a IH]; simpl; [reflexivity | rewrite IH; reflexivity].
Qed.

Lemma len_append (a b : string) : len (a ++ b) = (len a + len b)%nat.
Proof.
  unfold len.
  induction a as [|x a IH]; simpl; [reflexivity | rewrite IH; reflexivity].
Qed.

Lemma encode_char_length (c : ascii) :
  (1 <= List.length (encode_char c) <= 2)%nat.
Proof. unfold encode_char. destruct (N_of_ascii c <? 128)%N; simpl; lia. Qed.

(** Encoding never shortens: there are at least as many bytes as
    characters. *)
Lemma encode_utf8_length_ge (s : string) :
  (len s <= List.length (encode_utf8 s))%nat.
Proof.
  unfold len. induction s as [|c s IH]; simpl; [lia|].
  rewrite length_app. pose proof (encode_char_length c). lia.
Qed.

(** On ASCII text there are as many bytes as characters. *)
Lemma encode_utf8_length_ascii (s : string) :
  is_ascii s -> List.length (encode_utf8 s) = len s.
Proof.
  unfold is_ascii, len. induction s as [|c s IH]; simpl; [reflexivity|].
  intros H. inversion H as [|? ? Hc Hs]; subst.
  rewrite length_app, (IH Hs). unfold encode_char.
  apply N.ltb_lt in Hc. rewrite Hc. reflexivity.
Qed.

End TextFacts.

Section CsvFacts.

Import Frame Csv.

Context {float : Type} (dialect : Dialect float).

Implicit Types (frame : DataFrame float) (r : Row float).

Lemma line_cons (x y : string) (fields : list string) :
  line dialect (x :: y :: fields)
  = csv_field dialect x ++ "," ++ line dialect (y :: fields).
Proof.
  unfold line, Text.join. simpl map.
  change (String.concat "," (?a :: ?b :: ?l))
    with (a ++ "," ++ String.concat "," (b :: l)).
  rewrite !append_assoc. reflexivity.
Qed.

(** With the index, the header starts with one more field, the empty index
    name. *)
Lemma header_line_index frame :
  header_line dialect true frame
  = csv_field dialect "" ++ "," ++ header_line dialect false frame.
Proof. unfold header_line, columns. simpl app. apply line_cons. Qed.

(** With the index, a row starts with one more field, its label. *)
Lemma row_line_index r :
  row_line dialect true r
  = csv_field dialect (Text.str_of_Z (label r)) ++ ","
    ++ row_line dialect false r.
Proof. unfold row_line, row_fields. simpl app. apply line_cons. Qed.

Lemma rows_len_index frame :
  (Text.len (String.concat "" (map (row_line dialect false) frame))
   <= Text.len (String.concat "" (map (row_line dialect true) frame)))%nat.
Proof.
  induction frame as [|r frame IH]; [simpl; lia|].
  assert (Hcat : forall (f : Row float -> string),
    String.concat "" (map f (r :: frame))
    = f r ++ String.concat "" (map f frame)).
  { intros f. simpl. destruct (map f frame); simpl; [|reflexivity].
    clear. induction (f r) as [|c s IHs]; simpl; [reflexivity|].
    rewrite <- IHs. reflexivity. }
  rewrite !Hcat, !len_append, row_line_index, !len_append. lia.
Qed.

(** The text with the index column is longer than the text without. *)
Lemma to_csv_len_index frame :
  (Text.len (to_csv dialect false frame)
   < Text.len (to_csv dialect true frame))%nat.
Proof.
  unfold to_csv. rewrite !len_append, header_line_index, !len_append.
  pose proof (rows_len_index frame).
  change (Text.len ",") with 1%nat. lia.
Qed.

(** The displayed size is the character count of the text written with
    [index=False]. *)
Lemma csv_size_bytes_len frame :
  App.csv_size_bytes dialect frame = Text.len (to_csv dialect false frame).
Proof. reflexivity. Qed.

End CsvFacts.

Section CsvClaims.

Import Frame Csv.

Context {float : Type} (dialect : Dialect float).

Implicit Types (frame : DataFrame float) (r : Row float).

(** C1. The displayed size is measured on the text written with
    [index=False], the downloaded bytes encode the text written with the
    index column: for every table the download is strictly longer than the
    size displayed for it.  On the one-row sample the size is 86 and the
    download has 89 bytes. *)
Theorem download_longer_than_displayed_size frame :
  (App.csv_size_bytes dialect frame
   < List.length (convert_for_download dialect frame))%nat
  /\ App.csv_size_bytes Sample.plain Sample.one_row = 86%nat
  /\ List.length (convert_for_download Sample.plain Sample.one_row) = 89%nat.
Proof.
  split; [|split; reflexivity].
  rewrite csv_size_bytes_len. unfold convert_for_download.
  pose proof (to_csv_len_index dialect frame).
  pose proof (encode_utf8_length_ge (to_csv dialect true frame)). lia.
Qed.

(** C4. The exported text is the UTF-8 encoding of a header line and one
    line per row, but every line starts with one field more than the
    table's columns: the empty index name in the header, the row's label in
    a row.  The export of the empty table is the header with that extra
    field. *)
Theorem download_csv_has_index_column frame :
  convert_for_download dialect frame
  = Text.encode_utf8 (to_csv dialect true frame)
  /\ to_csv dialect true frame
     = (csv_field dialect "" ++ "," ++ header_line dialect false frame)
       ++ String.concat ""
            (map (fun r => csv_field dialect (Text.str_of_Z (label r)) ++ ","
                           ++ row_line dialect false r) frame)
  /\ to_csv Sample.plain true []
     = ",date,precipitation,temp_max,temp_min,wind,weather" ++ Sample.LF
  /\ to_csv Sample.plain true Sample.one_row
     = ",date,precipitation,temp_max,temp_min,wind,weather" ++ Sample.LF
       ++ "0,2012-01-01,0.0,12.8,5.0,4.7,drizzle" ++ Sample.LF
  /\ to_csv Sample.plain false Sample.one_row
     = "date,precipitation,temp_max,temp_min,wind,weather" ++ Sample.LF
       ++ "2012-01-01,0.0,12.8,5.0,4.7,drizzle" ++ Sample.LF.
Proof.
  split; [reflexivity|]. split; [|repeat split].
  unfold to_csv. rewrite header_line_index. f_equal. f_equal.
  apply map_ext. intros r. apply row_line_index.
Qed.

End CsvClaims.

(** * The whole run *)

Section RunFacts.

Import Frame Csv Describe.

Context {float : Type} (dialect : Dialect float) (K : Kernels float).

(** With a category selected that some row has, and a start picked after
    the end, the run completes: the chart gets the empty table, the summary
    is that of no row and the download is the header. *)
Lemma script_inverted_dates (T : DataFrame float) (C : list string)
    (r : Row float) (frame : DataFrame float) (s e : Z) :
  df T C = Ok (r :: frame) ->
  (e < s)%Z ->
  App.script dialect K T C (Some s) (Some e)
  = Ok {| App.chart_data := [];
          App.summary_source := describe K T;
          App.summary_filtered := describe K [];
          App.source_csv := convert_for_download dialect T;
          App.filtered_csv := Text.encode_utf8 (header_line dialect true []);
          App.source_size := App.formatted_size dialect T;
          App.filtered_size := App.formatted_size dialect [] |}.
Proof.
  intros Hdf Hinv. unfold App.script, filter_section. rewrite Hdf. simpl.
  rewrite filtered_df_ok.
  assert (Hnone : List.filter (fun x => between_value s e (date x)) (r :: frame)
                  = []).
  { rewrite (filter_ext _ (fun _ => false)); [apply filter_false|].
    intros x. apply between_value_inverted. exact Hinv. }
  rewrite Hnone. simpl. unfold convert_for_download, to_csv. simpl.
  rewrite append_empty_r. reflexivity.
Qed.

End RunFacts.

(** * The model on the sample *)

Section Samples.

Import Frame Csv Sample.

(** The specification's end-to-end scenario: sun and rain over the three
    days keep the second and third row, labels included. *)
Example scenario_sun_rain :
  two_stage_filter scenario ["sun"; "rain"] 15340 15342
  = Ok [ mkRow 1 15341 109 80 28 45 "rain"; mkRow 2 15342 0 150 72 23 "sun" ]%Z.
Proof. reflexivity. Qed.

Example scenario_single_pass :
  spec_filter scenario ["sun"; "rain"] 15340 15342
  = [ mkRow 1 15341 109 80 28 45 "rain"; mkRow 2 15342 0 150 72 23 "sun" ]%Z.
Proof. reflexivity. Qed.

(** With nothing picked the widgets return the bounds of the selected rows. *)
Example scenario_default_dates :
  start [ mkRow 1 15341 109 80 28 45 "rain"; mkRow 2 15342 0 150 72 23 "sun" ]%Z
    None = Ok 15341%Z
  /\ filter_section scenario ["sun"; "rain"] None None
     = two_stage_filter scenario ["sun"; "rain"] 15341 15342.
Proof. split; reflexivity. Qed.

Example scenario_download :
  to_csv plain true
    [ mkRow 1 15341 109 80 28 45 "rain"; mkRow 2 15342 0 150 72 23 "sun" ]%Z
  = ",date,precipitation,temp_max,temp_min,wind,weather" ++ LF
    ++ "1,2012-01-02,10.9,8.0,2.8,4.5,rain" ++ LF
    ++ "2,2012-01-03,0.0,15.0,7.2,2.3,sun" ++ LF.
Proof. reflexivity. Qed.

Example scenario_size :
  App.csv_size_bytes plain scenario = 151%nat
  /\ App.formatted_size plain scenario = Some "151.00 B".
Proof. split; reflexivity. Qed.

Example format_size_half : FormatSize.format_size 1536 = Some "1.50 KB".
Proof. reflexivity. Qed.

(** 1152 / 1024 = 1.125 lies halfway: the even neighbour is printed. *)
Example format_size_tie : FormatSize.format_size 1152 = Some "1.12 KB".
Proof. reflexivity. Qed.

Example format_size_below_zero :
  FormatSize.format_size (-5) = Some "-5.00 B".
Proof. reflexivity. Qed.

(** 2 * 1024^5 bytes stay in TB. *)
Example format_size_past_TB :
  FormatSize.format_size 2251799813685248 = Some "2048.00 TB".
Proof. reflexivity. Qed.

End Samples.


(** * More on [format_size] *)

Section FormatSizeRanges.

Import FormatSize.

(** Arithmetic on the loop's values: divisions by the constant 1024. *)
Ltac by_1024 :=
  repeat match goal with
  | H : context [(1024 ^ 2)%Q] |- _ =>
      change (1024 ^ 2)%Q with 1048576%Q in H
  | H : context [(1024 ^ 3)%Q] |- _ =>
      change (1024 ^ 3)%Q with 1073741824%Q in H
  | H : context [(1024 ^ 4)%Q] |- _ =>
      change (1024 ^ 4)%Q with 1099511627776%Q in H
  | H : context [(1024 ^ 5)%Q] |- _ =>
      change (1024 ^ 5)%Q with 1125899906842624%Q in H
  end;
  unfold Qdiv in *; change (/ 1024)%Q with (1 # 1024)%Q in *; lra.

(** One unfolding of the loop at a time. *)
Ltac run_loop :=
  unfold format_size, format_size_fuel, init;
  simpl while; unfold body, cond; simpl size; simpl unit;
  change (List.length units - 1)%nat with 4%nat;
  simpl Nat.ltb; rewrite ?andb_true_r, ?andb_false_r.

Lemma Qgtb_yes (a b : Q) : (b < a)%Q -> Qgtb a b = true.
Proof. apply Qgtb_true. Qed.

Lemma Qgtb_no (a b : Q) : (a <= b)%Q -> Qgtb a b = false.
Proof. apply Qgtb_false. Qed.

Lemma format_size_B (q : Q) :
  (q <= 1024)%Q -> format_size q = Some (format_2f q ++ " B").
Proof.
  intros H. run_loop.
  rewrite (Qgtb_no q 1024) by by_1024. reflexivity.
Qed.

Lemma format_size_KB (q : Q) :
  (1024 < q <= 1024 ^ 2)%Q ->
  format_size q = Some (format_2f (q / 1024) ++ " KB").
Proof.
  intros H. run_loop.
  rewrite (Qgtb_yes q 1024) by by_1024.
  rewrite (Qgtb_no (q / 1024) 1024) by by_1024. reflexivity.
Qed.

Lemma format_size_MB (q : Q) :
  (1024 ^ 2 < q <= 1024 ^ 3)%Q ->
  format_size q = Some (format_2f (q / 1024 / 1024) ++ " MB").
Proof.
  intros H. run_loop.
  rewrite (Qgtb_yes q 1024) by by_1024.
  rewrite (Qgtb_yes (q / 1024) 1024) by by_1024.
  rewrite (Qgtb_no (q / 1024 / 1024) 1024) by by_1024. reflexivity.
Qed.

Lemma format_size_GB (q : Q) :
  (1024 ^ 3 < q <= 1024 ^ 4)%Q ->
  format_size q = Some (format_2f (q / 1024 / 1024 / 1024) ++ " GB").
Proof.
  intros H. run_loop.
  rewrite (Qgtb_yes q 1024) by by_1024.
  rewrite (Qgtb_yes (q / 1024) 1024) by by_1024.
  rewrite (Qgtb_yes (q / 1024 / 1024) 1024) by by_1024.
  rewrite (Qgtb_no (q / 1024 / 1024 / 1024) 1024) by by_1024. reflexivity.
Qed.

Lemma format_size_TB (q : Q) :
  (1024 ^ 4 < q)%Q ->
  format_size q = Some (format_2f (q / 1024 / 1024 / 1024 / 1024) ++ " TB").
Proof.
  intros H. run_loop.
  rewrite (Qgtb_yes q 1024) by by_1024.
  rewrite (Qgtb_yes (q / 1024) 1024) by by_1024.
  rewrite (Qgtb_yes (q / 1024 / 1024) 1024) by by_1024.
  rewrite (Qgtb_yes (q / 1024 / 1024 / 1024) 1024) by by_1024.
  reflexivity.
Qed.

(** X1. The unit is read off the range of the input: B up to 1024, KB up
    to 1024^2, MB up to 1024^3, GB up to 1024^4 and TB above, every upper
    end included; the value printed is the input divided by 1024 once per
    unit passed. *)
Theorem format_size_unit_ranges (q : Q) :
  ((q <= 1024)%Q -> format_size q = Some (format_2f q ++ " B"))
  /\ ((1024 < q <= 1024 ^ 2)%Q ->
        format_size q = Some (format_2f (q / 1024) ++ " KB"))
  /\ ((1024 ^ 2 < q <= 1024 ^ 3)%Q ->
        format_size q = Some (format_2f (q / 1024 / 1024) ++ " MB"))
  /\ ((1024 ^ 3 < q <= 1024 ^ 4)%Q ->
        format_size q = Some (format_2f (q / 1024 / 1024 / 1024) ++ " GB"))
  /\ ((1024 ^ 4 < q)%Q ->
        format_size q
        = Some (format_2f (q / 1024 / 1024 / 1024 / 1024) ++ " TB")).
Proof.
  split; [apply format_size_B|]. split; [apply format_size_KB|].
  split; [apply format_size_MB|]. split; [apply format_size_GB|].
  apply format_size_TB.
Qed.

(** *** The printed digits depend on the value only *)

Lemma round_half_even_Qeq (p q : Q) :
  (p == q)%Q -> round_half_even p = round_half_even q.
Proof.
  destruct p as [n1 d1], q as [n2 d2]. unfold Qeq, round_half_even.
  simpl Qnum. simpl Qden. intros Heq.
  pose proof (Z.div_mod n1 (Zpos d1) ltac:(lia)) as Hdm1.
  pose proof (Z.mod_pos_bound n1 (Zpos d1) ltac:(lia)) as Hr1.
  pose proof (Z.div_mod n2 (Zpos d2) ltac:(lia)) as Hdm2.
  pose proof (Z.mod_pos_bound n2 (Zpos d2) ltac:(lia)) as Hr2.
  set (f1 := (n1 / Zpos d1)%Z) in *. set (r1 := (n1 mod Zpos d1)%Z) in *.
  set (f2 := (n2 / Zpos d2)%Z) in *. set (r2 := (n2 mod Zpos d2)%Z) in *.
  assert (Hk : (Zpos d1 * Zpos d2 * (f1 - f2)
                = r2 * Zpos d1 - r1 * Zpos d2)%Z).
  { rewrite Hdm1, Hdm2 in Heq. lia. }
  assert (Hb1 : (r2 * Zpos d1 < Zpos d2 * Zpos d1)%Z)
    by (apply Z.mul_lt_mono_pos_r; lia).
  assert (Hb2 : (r1 * Zpos d2 < Zpos d1 * Zpos d2)%Z)
    by (apply Z.mul_lt_mono_pos_r; lia).
  assert (Hb3 : (0 <= r2 * Zpos d1)%Z) by (apply Z.mul_nonneg_nonneg; lia).
  assert (Hb4 : (0 <= r1 * Zpos d2)%Z) by (apply Z.mul_nonneg_nonneg; lia).
  assert (Hf : f1 = f2).
  { destruct (Z.lt_trichotomy f1 f2) as [Hlt | [Heq' | Hgt]];
      [exfalso | exact Heq' | exfalso]; nia. }
  assert (Hr : (r1 * Zpos d2 = r2 * Zpos d1)%Z).
  { rewrite Hf in Hk. lia. }
  assert (Hs : ((2 * r1 - Zpos d1) * Zpos d2
                = (2 * r2 - Zpos d2) * Zpos d1)%Z) by lia.
  assert (Hcmp : (2 * r1 ?= Zpos d1)%Z = (2 * r2 ?= Zpos d2)%Z).
  { destruct (Z.compare_spec (2 * r1) (Zpos d1)) as [H1 | H1 | H1];
      destruct (Z.compare_spec (2 * r2) (Zpos d2)) as [H2 | H2 | H2];
      try reflexivity; exfalso; nia. }
  rewrite <- Hf, Hcmp. reflexivity.
Qed.

Lemma format_2f_Qeq (p q : Q) : (p == q)%Q -> format_2f p = format_2f q.
Proof.
  intros Heq. unfold format_2f.
  rewrite (round_half_even_Qeq (p * 100) (q * 100))
    by (rewrite Heq; reflexivity).
  unfold Qgtb. rewrite Heq. reflexivity.
Qed.

(** X4. Multiplying a size above 1 by 1024 moves it one unit up and leaves
    the digits as they are, as long as the size is at most 1024^4, so that
    a unit above its own exists. *)
Theorem format_size_times_1024 (q : Q)
    (Hlow : (1 < q)%Q) (Hhigh : (q <= 1024 ^ 4)%Q) :
  exists (digits : string) (n : nat) (u u' : string),
    nth_error units n = Some u
    /\ nth_error units (S n) = Some u'
    /\ format_size q = Some (digits ++ " " ++ u)
    /\ format_size (1024 * q) = Some (digits ++ " " ++ u').
Proof.
  destruct (Qlt_le_dec 1024 q) as [H1 | H1];
    [destruct (Qlt_le_dec (1024 ^ 2) q) as [H2 | H2];
     [destruct (Qlt_le_dec (1024 ^ 3) q) as [H3 | H3]|]|].
  - exists (format_2f (q / 1024 / 1024 / 1024)), 3%nat, "GB", "TB".
    split; [reflexivity|]. split; [reflexivity|].
    split; [apply format_size_GB; split; assumption|].
    rewrite format_size_TB by by_1024.
    rewrite (format_2f_Qeq (1024 * q / 1024 / 1024 / 1024 / 1024)
               (q / 1024 / 1024 / 1024)) by field.
    reflexivity.
  - exists (format_2f (q / 1024 / 1024)), 2%nat, "MB", "GB".
    split; [reflexivity|]. split; [reflexivity|].
    split; [apply format_size_MB; split; assumption|].
    rewrite format_size_GB by (split; by_1024).
    rewrite (format_2f_Qeq (1024 * q / 1024 / 1024 / 1024)
               (q / 1024 / 1024)) by field.
    reflexivity.
  - exists (format_2f (q / 1024)), 1%nat, "KB", "MB".
    split; [reflexivity|]. split; [reflexivity|].
    split; [apply format_size_KB; split; assumption|].
    rewrite format_size_MB by (split; by_1024).
    rewrite (format_2f_Qeq (1024 * q / 1024 / 1024) (q / 1024)) by field.
    reflexivity.
  - exists (format_2f q), 0%nat, "B", "KB".
    split; [reflexivity|]. split; [reflexivity|].
    split; [apply format_size_B; assumption|].
    rewrite format_size_KB by (split; by_1024).
    rewrite (format_2f_Qeq (1024 * q / 1024) q) by field.
    reflexivity.
Qed.

Lemma format_size_times_1024_witness :
  (1 < 1536)%Q /\ (1536 <= 1024 ^ 4)%Q
  /\ exists (digits : string) (n : nat) (u u' : string),
       nth_error units n = Some u
       /\ nth_error units (S n) = Some u'
       /\ format_size 1536 = Some (digits ++ " " ++ u)
       /\ format_size (1024 * 1536) = Some (digits ++ " " ++ u').
Proof.
  assert (Hlow : (1 < 1536)%Q) by reflexivity.
  assert (Hhigh : (1536 <= 1024 ^ 4)%Q) by (vm_compute; discriminate).
  split; [exact Hlow|]. split; [exact Hhigh|].
  exact (format_size_times_1024 1536 Hlow Hhigh).
Defined.

End FormatSizeRanges.


Section FormatSizeValue.

Import FormatSize.

Lemma size_nonneg_iter (n : nat) (st : state) :
  (0 <= size st)%Q -> (0 <= size (Nat.iter n body st))%Q.
Proof.
  intros H. induction n as [|n IH]; simpl; [exact H|].
  unfold Qdiv. change (/ 1024)%Q with (1 # 1024)%Q. lra.
Qed.

(** X2. The number printed is readable: it is not negative for an input
    that is not, it is above 1 for an input above 1024, and it is at most
    1024 for an input of at most 1024^5. *)
Theorem format_size_value_bounds (q : Q) :
  exists (n : nat) (u : string),
    format_size q = Some (format_2f (size (after n q)) ++ " " ++ u)
    /\ nth_error units n = Some u
    /\ ((0 <= q)%Q -> (0 <= size (after n q))%Q)
    /\ ((1024 < q)%Q -> (1 < size (after n q))%Q)
    /\ ((q <= 1024 ^ 5)%Q -> (size (after n q) <= 1024)%Q).
Proof.
  destruct (format_size_rounds q)
    as (n & u & Hn & Hstop & Hbefore & Hu & _ & Hfuel).
  destruct (Hfuel (List.length units)) as [_ Hres]; [simpl; lia|].
  exists n, u. split; [exact Hres|]. split; [exact Hu|].
  apply cond_false in Hstop. rewrite after_unit in Hstop.
  split; [|split].
  - intros Hq. apply size_nonneg_iter. exact Hq.
  - intros Hq. destruct n as [|m].
    + exfalso. destruct Hstop as [Hle | Hge]; [simpl in Hle; lra | lia].
    + assert (Hc : cond (after m q) = true) by (apply Hbefore; lia).
      apply cond_true in Hc. destruct Hc as [Hc _].
      unfold after in *. rewrite Nat.iter_succ. simpl size.
      unfold Qdiv. change (/ 1024)%Q with (1 # 1024)%Q. lra.
  - intros Hq. destruct Hstop as [Hle | Hge]; [exact Hle|].
    assert (n = 4%nat) as -> by lia. simpl.
    change (1024 ^ 5)%Q with 1125899906842624%Q in Hq.
    unfold Qdiv. change (/ 1024)%Q with (1 # 1024)%Q. lra.
Qed.

(** The integer [round_half_even] picks is a nearest one, and the even one
    of the two when the value lies halfway. *)
Lemma round_half_even_nearest (q : Q) :
  (Qabs (inject_Z (round_half_even q) - q) <= 1 # 2)%Q
  /\ ((Qabs (inject_Z (round_half_even q) - q) == 1 # 2)%Q ->
      Z.even (round_half_even q) = true).
Proof.
  destruct q as [n d]. unfold round_half_even. simpl Qnum. simpl Qden.
  pose proof (Z.div_mod n (Zpos d) ltac:(lia)) as Hdm.
  pose proof (Z.mod_pos_bound n (Zpos d) ltac:(lia)) as Hr.
  set (f := (n / Zpos d)%Z) in *. set (r := (n mod Zpos d)%Z) in *.
  assert (Hshape : forall c : Z,
    (Qabs (inject_Z c - (n # d)) <= 1 # 2)%Q
    <-> (2 * Z.abs (c * Zpos d - n) <= Zpos d)%Z).
  { intros c. unfold Qle, Qabs, Qminus, Qplus, Qopp, inject_Z. simpl.
    rewrite Z.mul_1_r. split; intros H; lia. }
  assert (Hshape' : forall c : Z,
    (Qabs (inject_Z c - (n # d)) == 1 # 2)%Q
    <-> (2 * Z.abs (c * Zpos d - n) = Zpos d)%Z).
  { intros c. unfold Qeq, Qabs, Qminus, Qplus, Qopp, inject_Z. simpl.
    rewrite Z.mul_1_r. split; intros H; lia. }
  destruct (2 * r ?= Zpos d)%Z eqn:Hcmp.
  - apply Z.compare_eq in Hcmp.
    destruct (Z.even f) eqn:Hev.
    + split; [apply Hshape; nia | intros _; exact Hev].
    + split; [apply Hshape; nia|]. intros _.
      rewrite Z.even_add, Hev. reflexivity.
  - rewrite Z.compare_lt_iff in Hcmp.
    split; [apply Hshape; nia|].
    intros Htie. apply Hshape' in Htie. exfalso. nia.
  - rewrite Z.compare_gt_iff in Hcmp.
    split; [apply Hshape; nia|].
    intros Htie. apply Hshape' in Htie. exfalso. nia.
Qed.

End FormatSizeValue.

Section FormatSizeDigits.

Import FormatSize.

Lemma round_half_even_sign (p : Q) :
  ((0 <= p)%Q -> (0 <= round_half_even p)%Z)
  /\ ((p <= 0)%Q -> (round_half_even p <= 0)%Z).
Proof.
  destruct p as [n d]. unfold Qle, round_half_even. simpl Qnum. simpl Qden.
  rewrite !Z.mul_1_r. simpl Z.mul.
  pose proof (Z.div_mod n (Zpos d) ltac:(lia)) as Hdm.
  pose proof (Z.mod_pos_bound n (Zpos d) ltac:(lia)) as Hr.
  set (f := (n / Zpos d)%Z) in *. set (r := (n mod Zpos d)%Z) in *.
  assert (Hf0 : (0 <= n)%Z -> (0 <= f)%Z)
    by (intros; unfold f; apply Z.div_pos; lia).
  assert (Hf1 : (n <= 0)%Z -> (f <= 0)%Z) by (intros; nia).
  assert (Hf2 : (n <= 0)%Z -> (0 < r)%Z -> (f <= -1)%Z) by (intros; nia).
  destruct (Z.compare_spec (2 * r) (Zpos d)) as [Hc | Hc | Hc];
    [destruct (Z.even f)|..]; split; intros Hn; lia.
Qed.

(** X3. The digits printed are those of the hundredth nearest to the
    value, the even one of the two when the value lies halfway between two
    hundredths, and they carry the sign of the value. *)
Theorem format_2f_nearest_hundredth (q : Q) :
  exists c : Z,
    format_2f q
    = (if Qgtb 0 q then "-" else "")
      ++ Text.str_of_nonneg (Z.abs c / 100) ++ "."
      ++ String (digit ((Z.abs c / 10) mod 10))
           (String (digit (Z.abs c mod 10)) "")
    /\ (Qabs (inject_Z c - q * 100) <= 1 # 2)%Q
    /\ ((Qabs (inject_Z c - q * 100) == 1 # 2)%Q -> Z.even c = true)
    /\ ((0 <= q)%Q -> (0 <= c)%Z)
    /\ ((q <= 0)%Q -> (c <= 0)%Z).
Proof.
  exists (round_half_even (q * 100)).
  split; [reflexivity|].
  destruct (round_half_even_nearest (q * 100)) as [Hnear Htie].
  destruct (round_half_even_sign (q * 100)) as [Hpos Hneg].
  split; [exact Hnear|]. split; [exact Htie|].
  split; intros Hq; [apply Hpos | apply Hneg]; lra.
Qed.

End FormatSizeDigits.


(** * More on the filter and the date widgets *)

Section SelectionFacts.

Import Frame.

Context {float : Type}.

Implicit Types (frame T : DataFrame float) (r : Row float) (C : list string).

Lemma fold_min_spec (l : list Z) (x : Z) :
  In (fold_left Z.min l x) (x :: l)
  /\ forall y : Z, In y (x :: l) -> (fold_left Z.min l x <= y)%Z.
Proof.
  revert x. induction l as [|a l IH]; intros x; simpl.
  - split; [left; reflexivity | intros y [<- | []]; lia].
  - destruct (IH (Z.min x a)) as [Hin Hle]. split.
    + destruct Hin as [Heq | Hin]; [|right; right; exact Hin].
      rewrite <- Heq. destruct (Z.min_spec x a) as [[_ ->] | [_ ->]]; auto.
    + intros y [<- | [<- | Hy]].
      * specialize (Hle (Z.min x a) (or_introl eq_refl)). lia.
      * specialize (Hle (Z.min x a) (or_introl eq_refl)). lia.
      * apply Hle. right. exact Hy.
Qed.

Lemma fold_max_spec (l : list Z) (x : Z) :
  In (fold_left Z.max l x) (x :: l)
  /\ forall y : Z, In y (x :: l) -> (y <= fold_left Z.max l x)%Z.
Proof.
  revert x. induction l as [|a l IH]; intros x; simpl.
  - split; [left; reflexivity | intros y [<- | []]; lia].
  - destruct (IH (Z.max x a)) as [Hin Hle]. split.
    + destruct Hin as [Heq | Hin]; [|right; right; exact Hin].
      rewrite <- Heq. destruct (Z.max_spec x a) as [[_ ->] | [_ ->]]; auto.
    + intros y [<- | [<- | Hy]].
      * specialize (Hle (Z.max x a) (or_introl eq_refl)). lia.
      * specialize (Hle (Z.max x a) (or_introl eq_refl)). lia.
      * apply Hle. right. exact Hy.
Qed.

Lemma filter_all {A : Type} (p : A -> bool) (l : list A) :
  (forall x : A, In x l -> p x = true) -> List.filter p l = l.
Proof.
  intros H. rewrite (filter_ext_in p (fun _ => true) l H).
  apply filter_true.
Qed.

Lemma filter_nil_iff {A : Type} (p : A -> bool) (l : list A) :
  List.filter p l = [] <-> forall x : A, In x l -> p x = false.
Proof.
  split.
  - intros Hnil x Hx. destruct (p x) eqn:Hp; [|reflexivity].
    assert (Hin : In x (List.filter p l)) by (apply filter_In; auto).
    rewrite Hnil in Hin. destruct Hin.
  - intros H. rewrite (filter_ext_in p (fun _ => false) l H).
    apply filter_false.
Qed.

(** The date stage at the extreme dates keeps every row. *)
Lemma filtered_df_extremes r frame :
  filtered_df (r :: frame)
    (fold_left Z.min (map date frame) (date r))
    (fold_left Z.max (map date frame) (date r))
  = Ok (r :: frame).
Proof.
  rewrite filtered_df_ok. f_equal. apply filter_all.
  intros x Hx. apply between_value_iff.
  assert (Hd : In (date x) (date r :: map date frame)).
  { change (In (date x) (map date (r :: frame))). apply in_map. exact Hx. }
  split.
  - apply (fold_min_spec (map date frame) (date r)). exact Hd.
  - apply (fold_max_spec (map date frame) (date r)). exact Hd.
Qed.

Lemma isin_value_ext C C' :
  (forall x : string, In x C <-> In x C') ->
  forall x : string, isin_value C x = isin_value C' x.
Proof.
  intros H x. apply eq_true_iff_eq. rewrite !isin_value_In. apply H.
Qed.

Lemma isin_value_both C1 C2 (x : string) :
  isin_value (List.filter (isin_value C2) C1) x
  = isin_value C1 x && isin_value C2 x.
Proof.
  apply eq_true_iff_eq.
  rewrite andb_true_iff, !isin_value_In, filter_In, isin_value_In.
  reflexivity.
Qed.

Lemma between_value_both (s1 e1 s2 e2 x : Z) :
  between_value (Z.max s1 s2) (Z.min e1 e2) x
  = between_value s1 e1 x && between_value s2 e2 x.
Proof.
  apply eq_true_iff_eq.
  rewrite andb_true_iff, !between_value_iff. lia.
Qed.

Lemma filter_sublist_impl {A : Type} (p p' : A -> bool) (l : list A) :
  (forall x : A, p x = true -> p' x = true) ->
  sublist (List.filter p l) (List.filter p' l).
Proof.
  intros H. induction l as [|x l IH]; simpl; [constructor|].
  destruct (p x) eqn:Hp.
  - rewrite (H x Hp). constructor. exact IH.
  - destruct (p' x); [constructor|]; exact IH.
Qed.

End SelectionFacts.

Section SelectionProperties.

Import Frame.

Context {float : Type}.

Implicit Types (frame T : DataFrame float) (r : Row float) (C : list string).

(** X5. A run raises, at the first date widget, exactly when no row of the
    source has a selected category, whatever dates were picked; it
    completes exactly when some row has one. *)
Theorem run_raises_iff_no_row_selected
    (dialect : Csv.Dialect float) (K : Describe.Kernels float)
    T C (picked_start picked_end : option Z) :
  ((forall r, In r T -> ~ In (weather r) C)
   <-> App.script dialect K T C picked_start picked_end
       = Raise (ValueError "NaTType does not support timetuple"))
  /\ ((exists r, In r T /\ In (weather r) C)
      <-> exists page : App.Page,
            App.script dialect K T C picked_start picked_end = Ok page).
Proof.
  unfold App.script, filter_section. rewrite df_ok. simpl.
  destruct (List.filter (fun r => isin_value C (weather r)) T)
    as [|r0 frame] eqn:Hsel.
  - assert (Hnone : forall r, In r T -> ~ In (weather r) C).
    { intros r Hr HC. apply isin_value_In in HC.
      rewrite (proj1 (filter_nil_iff _ T) Hsel r Hr) in HC. discriminate. }
    simpl. split; split.
    + reflexivity.
    + intros _. exact Hnone.
    + intros (r & Hr & HC). exfalso. exact (Hnone r Hr HC).
    + intros (page & Hpage). discriminate.
  - assert (Hsome : In r0 T /\ In (weather r0) C).
    { assert (Hin : In r0 (List.filter (fun r => isin_value C (weather r)) T))
        by (rewrite Hsel; left; reflexivity).
      apply filter_In in Hin. rewrite isin_value_In in Hin. exact Hin. }
    simpl. rewrite filtered_df_ok. simpl. split; split.
    + intros Hnone. exfalso. destruct Hsome as [Hr HC].
      exact (Hnone r0 Hr HC).
    + discriminate.
    + intros _. eexists. reflexivity.
    + intros _. exists r0. exact Hsome.
Qed.

(** X6. With no date picked the date stage drops nothing: when some row
    has a selected category, lines 44 to 70 return the category-filtered
    frame, and the whole source when every row has a selected category. *)
Theorem default_dates_keep_selected_rows T C r
    (Hrow : In r T) (Hsel : In (weather r) C) :
  filter_section T C None None = df T C
  /\ ((forall r', In r' T -> In (weather r') C) ->
      filter_section T C None None = Ok T).
Proof.
  assert (Hmain : filter_section T C None None = df T C).
  { unfold filter_section. rewrite df_ok. simpl.
    destruct (List.filter (fun r => isin_value C (weather r)) T)
      as [|r0 frame] eqn:Hdf.
    - exfalso.
      assert (Hin : In r (List.filter (fun r => isin_value C (weather r)) T)).
      { apply filter_In.
        split; [exact Hrow | apply isin_value_In; exact Hsel]. }
      rewrite Hdf in Hin. destruct Hin.
    - simpl. apply filtered_df_extremes. }
  split; [exact Hmain|].
  intros Hall. rewrite Hmain, df_ok. f_equal. apply filter_all.
  intros r' Hr'. apply isin_value_In. apply Hall. exact Hr'.
Qed.

(** X7. On a frame with a row the start widget offers the earliest date of
    the frame and the end widget the latest: both are dates of rows, every
    row's date lies between them, so the default interval is never
    inverted. *)
Theorem default_dates_are_extremes r frame :
  exists lo hi : Z,
    start (r :: frame) None = Ok lo
    /\ end_ (r :: frame) None = Ok hi
    /\ In lo (map date (r :: frame))
    /\ In hi (map date (r :: frame))
    /\ (forall x, In x (r :: frame) -> (lo <= date x <= hi)%Z)
    /\ (lo <= hi)%Z.
Proof.
  destruct (fold_min_spec (map date frame) (date r)) as [Hlo_in Hlo].
  destruct (fold_max_spec (map date frame) (date r)) as [Hhi_in Hhi].
  exists (fold_left Z.min (map date frame) (date r)),
         (fold_left Z.max (map date frame) (date r)).
  split; [reflexivity|]. split; [reflexivity|].
  split; [exact Hlo_in|]. split; [exact Hhi_in|].
  assert (Hall : forall x, In x (r :: frame) ->
    (fold_left Z.min (map date frame) (date r) <= date x
     <= fold_left Z.max (map date frame) (date r))%Z).
  { intros x Hx.
    assert (Hd : In (date x) (date r :: map date frame)).
    { change (In (date x) (map date (r :: frame))). apply in_map. exact Hx. }
    split; [apply Hlo | apply Hhi]; exact Hd. }
  split; [exact Hall|].
  specialize (Hall r (or_introl eq_refl)). lia.
Qed.

(** X8. The selection counts as a set: two selections with the same
    members, in any order and with any repetitions, select the same rows
    and give the same filtered table, or the same exception. *)
Theorem selection_is_a_set T C C' (picked_start picked_end : option Z)
    (Hsame : forall x : string, In x C <-> In x C') :
  df T C = df T C'
  /\ filter_section T C picked_start picked_end
     = filter_section T C' picked_start picked_end.
Proof.
  assert (Hdf : df T C = df T C').
  { rewrite !df_ok. f_equal. apply filter_ext. intros r.
    apply isin_value_ext. exact Hsame. }
  split; [exact Hdf|].
  unfold filter_section. rewrite Hdf. reflexivity.
Qed.

(** X9. Filtering a filtered table again is filtering once with the
    categories common to both selections and the overlap of the two
    intervals; in particular filtering again with the same criteria changes
    nothing. *)
Theorem filter_twice T C1 C2 (s1 e1 s2 e2 : Z) :
  (R ← two_stage_filter T C1 s1 e1; two_stage_filter R C2 s2 e2)
  = two_stage_filter T (List.filter (isin_value C2) C1)
      (Z.max s1 s2) (Z.min e1 e2)
  /\ (R ← two_stage_filter T C1 s1 e1; two_stage_filter R C1 s1 e1)
     = two_stage_filter T C1 s1 e1.
Proof.
  assert (Hgen : forall C2 s2 e2,
    (R ← two_stage_filter T C1 s1 e1; two_stage_filter R C2 s2 e2)
    = Ok (List.filter
            (fun r =>
               (isin_value C1 (weather r) && between_value s1 e1 (date r))
               && (isin_value C2 (weather r) && between_value s2 e2 (date r)))
            T)).
  { intros C s e. rewrite two_stage_filter_ok. simpl.
    rewrite two_stage_filter_ok, filter_filter. reflexivity. }
  split.
  - rewrite Hgen, two_stage_filter_ok. f_equal. apply filter_ext. intros r.
    rewrite isin_value_both, between_value_both.
    destruct (isin_value C1 (weather r)), (isin_value C2 (weather r)),
      (between_value s1 e1 (date r)), (between_value s2 e2 (date r));
      reflexivity.
  - rewrite Hgen, two_stage_filter_ok. f_equal. apply filter_ext. intros r.
    destruct (isin_value C1 (weather r)), (between_value s1 e1 (date r));
      reflexivity.
Qed.

(** X10. Selecting more categories or widening the interval only adds
    rows: the narrower result is a subsequence of the wider one. *)
Theorem wider_criteria_keep_more T C C' (s e s' e' : Z)
    (Hcat : forall x : string, In x C -> In x C')
    (Hstart : (s' <= s)%Z) (Hend : (e <= e')%Z) :
  exists R R' : DataFrame float,
    two_stage_filter T C s e = Ok R
    /\ two_stage_filter T C' s' e' = Ok R'
    /\ sublist R R'.
Proof.
  eexists. eexists.
  split; [apply two_stage_filter_ok|]. split; [apply two_stage_filter_ok|].
  apply filter_sublist_impl. intros r.
  rewrite !masks_iff. intros [HC Hd]. split; [apply Hcat; exact HC | lia].
Qed.

(** X11. Boolean indexing keeps the index labels: the labels of the
    filtered rows are a subsequence of the source's, and when no two source
    rows share a label no two filtered rows do. *)
Theorem filter_keeps_labels T C (s e : Z) :
  exists R : DataFrame float,
    two_stage_filter T C s e = Ok R
    /\ sublist (map label R) (map label T)
    /\ (List.NoDup (map label T) -> List.NoDup (map label R)).
Proof.
  eexists. split; [apply two_stage_filter_ok|].
  set (keep := fun r => isin_value C (weather r) && between_value s e (date r)).
  assert (Hsub : sublist (map label (List.filter keep T)) (map label T)).
  { apply (fmap_sublist label). apply filter_sublist. }
  split; [exact Hsub|].
  intros Hnd. apply NoDup_ListNoDup. apply NoDup_ListNoDup in Hnd.
  exact (sublist_NoDup _ _ Hnd Hsub).
Qed.

End SelectionProperties.

Lemma default_dates_keep_selected_rows_witness :
  In (Frame.mkRow 0 15340 0 100 50 30 "drizzle")%Z Sample.scenario
  /\ In "drizzle" Controls.options
  /\ Frame.filter_section Sample.scenario Controls.options None None
     = Ok Sample.scenario.
Proof.
  assert (Hrow : In (Frame.mkRow 0 15340 0 100 50 30 "drizzle")%Z
                   Sample.scenario) by (simpl; auto).
  assert (Hsel : In "drizzle" Controls.options) by (simpl; auto).
  split; [exact Hrow|]. split; [exact Hsel|].
  apply (default_dates_keep_selected_rows Sample.scenario Controls.options
           _ Hrow Hsel).
  intros r' [<- | [<- | [<- | []]]]; simpl; auto.
Defined.

Lemma selection_is_a_set_witness :
  (forall x : string,
     In x ["sun"; "rain"] <-> In x ["rain"; "sun"; "sun"])
  /\ Frame.filter_section Sample.scenario ["sun"; "rain"] None None
     = Frame.filter_section Sample.scenario ["rain"; "sun"; "sun"] None None.
Proof.
  assert (Hsame : forall x : string,
            In x ["sun"; "rain"] <-> In x ["rain"; "sun"; "sun"])
    by (intros x; simpl; tauto).
  split; [exact Hsame|].
  exact (proj2 (selection_is_a_set Sample.scenario _ _ None None Hsame)).
Defined.

Lemma wider_criteria_keep_more_witness :
  (forall x : string, In x ["sun"] -> In x ["sun"; "rain"])
  /\ (15340 <= 15341)%Z /\ (15341 <= 15342)%Z
  /\ exists R R' : Frame.DataFrame Z,
       Frame.two_stage_filter Sample.scenario ["sun"] 15341 15341 = Ok R
       /\ Frame.two_stage_filter Sample.scenario ["sun"; "rain"] 15340 15342
          = Ok R'
       /\ sublist R R'.
Proof.
  assert (Hcat : forall x : string, In x ["sun"] -> In x ["sun"; "rain"])
    by (intros x; simpl; tauto).
  assert (Hstart : (15340 <= 15341)%Z) by lia.
  assert (Hend : (15341 <= 15342)%Z) by lia.
  split; [exact Hcat|]. split; [exact Hstart|]. split; [exact Hend|].
  exact (wider_criteria_keep_more Sample.scenario _ _ _ _ _ _
           Hcat Hstart Hend).
Defined.



(** * More on the export and the summary *)

Section ExportFacts.

Import Frame Csv.

Context {float : Type} (dialect : Dialect float).

Implicit Types (frame T : DataFrame float) (r : Row float).

Lemma concat_empty_cons (x : string) (l : list string) :
  String.concat "" (x :: l) = x ++ String.concat "" l.
Proof.
  destruct l as [|y l]; simpl; [rewrite append_empty_r|]; reflexivity.
Qed.

Lemma encode_utf8_app (a b : string) :
  Text.encode_utf8 (a ++ b)
  = (Text.encode_utf8 a ++ Text.encode_utf8 b)%list.
Proof.
  induction a as [|c a IH]; simpl; [reflexivity|].
  rewrite IH, app_assoc. reflexivity.
Qed.

(** The text is the header and then the rows' lines: its length is the sum
    of theirs, in characters and in bytes. *)
Lemma to_csv_len (index : bool) frame :
  Text.len (to_csv dialect index frame)
  = (Text.len (header_line dialect index frame)
     + list_sum (map (fun r => Text.len (row_line dialect index r)) frame))%nat.
Proof.
  unfold to_csv. rewrite len_append. f_equal.
  induction frame as [|r frame IH]; [reflexivity|].
  simpl map. rewrite concat_empty_cons, len_append, IH. reflexivity.
Qed.

Lemma to_csv_bytes (index : bool) frame :
  List.length (Text.encode_utf8 (to_csv dialect index frame))
  = (List.length (Text.encode_utf8 (header_line dialect index frame))
     + list_sum
         (map (fun r =>
                 List.length (Text.encode_utf8 (row_line dialect index r)))
            frame))%nat.
Proof.
  unfold to_csv. rewrite encode_utf8_app, length_app. f_equal.
  induction frame as [|r frame IH]; [reflexivity|].
  simpl map. rewrite concat_empty_cons, encode_utf8_app, length_app, IH.
  reflexivity.
Qed.

Lemma list_sum_sublist {A : Type} (f : A -> nat) (l1 l2 : list A) :
  sublist l1 l2 -> (list_sum (map f l1) <= list_sum (map f l2))%nat.
Proof. induction 1; simpl; lia. Qed.

Lemma filter_sublist_mono {A : Type} (p : A -> bool) (l1 l2 : list A) :
  sublist l1 l2 -> sublist (List.filter p l1) (List.filter p l2).
Proof.
  induction 1 as [|x l1 l2 _ IH|x l1 l2 _ IH]; simpl.
  - constructor.
  - destruct (p x); [constructor|]; exact IH.
  - destruct (p x); [constructor|]; exact IH.
Qed.

Lemma index_chars_len frame :
  Text.len (to_csv dialect true frame)
  = (Text.len (to_csv dialect false frame)
     + Measure.index_chars dialect frame)%nat.
Proof.
  rewrite !to_csv_len, header_line_index, !len_append.
  unfold Measure.index_chars. change (Text.len ",") with 1%nat.
  assert (Hrows :
    list_sum (map (fun r => Text.len (row_line dialect true r)) frame)
    = (list_sum (map (fun r => Text.len (row_line dialect false r)) frame)
       + list_sum
           (map (fun r =>
                   Text.len (csv_field dialect (Text.str_of_Z (label r))) + 1)
              frame))%nat).
  { induction frame as [|r frame IH]; [reflexivity|].
    simpl map. simpl list_sum. rewrite IH, row_line_index, !len_append.
    change (Text.len ",") with 1%nat. lia. }
  rewrite Hrows. lia.
Qed.

Lemma is_ascii_forallb (s : string) :
  forallb (fun c => (N_of_ascii c <? 128)%N) (list_ascii_of_string s) = true ->
  Text.is_ascii s.
Proof.
  intros H. unfold Text.is_ascii. apply List.Forall_forall. intros c Hc.
  apply N.ltb_lt. exact (proj1 (forallb_forall _ _) H c Hc).
Qed.

End ExportFacts.

Section ExportProperties.

Import Frame Csv.

Context {float : Type} (dialect : Dialect float).

Implicit Types (frame T : DataFrame float) (r : Row float).

(** X12. Filtering never makes the export larger: the size displayed for
    the filtered table is at most the size displayed for the source, and
    the filtered download has at most as many bytes as the source
    download. *)
Theorem filtered_export_not_larger T (C : list string) (s e : Z) :
  exists R : DataFrame float,
    two_stage_filter T C s e = Ok R
    /\ (App.csv_size_bytes dialect R <= App.csv_size_bytes dialect T)%nat
    /\ (List.length (convert_for_download dialect R)
        <= List.length (convert_for_download dialect T))%nat.
Proof.
  eexists. split; [apply two_stage_filter_ok|].
  set (R := List.filter _ T).
  assert (Hsub : sublist R T) by apply filter_sublist.
  split.
  - rewrite !csv_size_bytes_len, !to_csv_len.
    apply Nat.add_le_mono_l. apply list_sum_sublist. exact Hsub.
  - unfold convert_for_download. rewrite !to_csv_bytes.
    apply Nat.add_le_mono_l. apply list_sum_sublist. exact Hsub.
Qed.

(** X13. What the download has more than the displayed size is the index
    column: in characters always, and in bytes when the exported text is
    ASCII, the download is longer by one field and one comma per line, the
    empty index name on the header and the label on each row. *)
Theorem download_gap_is_index_column frame
    (Hascii : Text.is_ascii (to_csv dialect true frame)) :
  Text.len (to_csv dialect true frame)
  = (App.csv_size_bytes dialect frame + Measure.index_chars dialect frame)%nat
  /\ List.length (convert_for_download dialect frame)
     = (App.csv_size_bytes dialect frame
        + Measure.index_chars dialect frame)%nat.
Proof.
  rewrite csv_size_bytes_len. split; [apply index_chars_len|].
  unfold convert_for_download.
  rewrite (encode_utf8_length_ascii _ Hascii). apply index_chars_len.
Qed.

End ExportProperties.

Lemma download_gap_is_index_column_witness :
  Text.is_ascii (Csv.to_csv Sample.plain true Sample.scenario)
  /\ List.length (Csv.convert_for_download Sample.plain Sample.scenario)
     = (151 + 7)%nat.
Proof.
  assert (H : Text.is_ascii (Csv.to_csv Sample.plain true Sample.scenario)).
  { apply is_ascii_forallb. vm_compute. reflexivity. }
  split; [exact H|].
  exact (proj2 (download_gap_is_index_column Sample.plain Sample.scenario H)).
Defined.

Section SummaryProperties.

Import Frame Describe.

Context {float : Type} (K : Kernels float).

Lemma dropna_sublist_length {A : Type} (f : A -> float) (l1 l2 : list A) :
  sublist l1 l2 ->
  (List.length (dropna K (map f l1)) <= List.length (dropna K (map f l2)))%nat.
Proof.
  intros Hsub. apply sublist_length. unfold dropna.
  apply filter_sublist_mono. apply (fmap_sublist f). exact Hsub.
Qed.

Lemma dropna_length_le {A : Type} (f : A -> float) (l : list A) :
  (List.length (dropna K (map f l)) <= List.length l)%nat.
Proof.
  unfold dropna.
  pose proof (filter_length_le (fun x => negb (isnan K x)) (map f l)) as H.
  rewrite length_map in H. exact H.
Qed.

(** X17. The summary of the filtered table lists the same columns as the
    summary of the source, and no count in it exceeds the source's count
    for that column, which is itself at most the number of source rows. *)
Theorem filtered_counts_not_larger (T : DataFrame float) (C : list string)
    (s e : Z) :
  exists R : DataFrame float,
    two_stage_filter T C s e = Ok R
    /\ Forall2
         (fun filtered_entry source_entry =>
            fst filtered_entry = fst source_entry
            /\ (count (snd filtered_entry) <= count (snd source_entry))%nat
            /\ (count (snd source_entry) <= List.length T)%nat)
         (describe K R) (describe K T).
Proof.
  eexists. split; [apply two_stage_filter_ok|].
  set (R := List.filter _ T).
  assert (Hsub : sublist R T) by apply filter_sublist.
  unfold describe.
  repeat (constructor;
          [split; [reflexivity|];
           split; [apply dropna_sublist_length; exact Hsub
                  | apply dropna_length_le]|]).
  constructor.
Qed.

End SummaryProperties.

Section ExportLines.

Import Frame Csv.

Context {float : Type} (dialect : Dialect float).

(** X14. The filtered export is the source export with lines left out:
    both are the same header followed by the rows' lines, and the lines of
    the filtered rows are a subsequence of the lines of the source rows,
    with or without the index column. *)
Theorem filtered_export_drops_lines (index : bool) (T : DataFrame float)
    (C : list string) (s e : Z) :
  exists R : DataFrame float,
    two_stage_filter T C s e = Ok R
    /\ to_csv dialect index T
       = header_line dialect index T
         ++ String.concat "" (map (row_line dialect index) T)
    /\ to_csv dialect index R
       = header_line dialect index T
         ++ String.concat "" (map (row_line dialect index) R)
    /\ sublist (map (row_line dialect index) R)
               (map (row_line dialect index) T).
Proof.
  eexists. split; [apply two_stage_filter_ok|].
  split; [reflexivity|]. split; [reflexivity|].
  apply (fmap_sublist (row_line dialect index)). apply filter_sublist.
Qed.

End ExportLines.


(** * From the widgets to the filter, from the size to its text *)

Section PickedDates.

Import Frame.

Context {float : Type}.

(** X15. When some row has a selected category, lines 44 to 70 run with
    the two picked dates are the two-stage filter at those dates: the
    widgets pass the picks on and raise nothing. *)
Theorem filter_section_at_picked_dates (T : DataFrame float)
    (C : list string) (r : Row float) (s e : Z)
    (Hrow : In r T) (Hsel : In (weather r) C) :
  filter_section T C (Some s) (Some e) = two_stage_filter T C s e.
Proof.
  unfold filter_section, two_stage_filter. rewrite df_ok. simpl.
  destruct (List.filter (fun r => isin_value C (weather r)) T)
    as [|r0 frame] eqn:Hdf; [|reflexivity].
  exfalso.
  assert (Hin : In r (List.filter (fun r => isin_value C (weather r)) T)).
  { apply filter_In. split; [exact Hrow | apply isin_value_In; exact Hsel]. }
  rewrite Hdf in Hin. destruct Hin.
Qed.

End PickedDates.

Lemma filter_section_at_picked_dates_witness :
  In (Frame.mkRow 2 15342 0 150 72 23 "sun")%Z Sample.scenario
  /\ In "sun" ["sun"; "rain"]
  /\ Frame.filter_section Sample.scenario ["sun"; "rain"]
       (Some 15340%Z) (Some 15341%Z)
     = Frame.two_stage_filter Sample.scenario ["sun"; "rain"] 15340 15341.
Proof.
  assert (Hrow : In (Frame.mkRow 2 15342 0 150 72 23 "sun")%Z Sample.scenario)
    by (simpl; auto).
  assert (Hsel : In "sun" ["sun"; "rain"]) by (simpl; auto).
  split; [exact Hrow|]. split; [exact Hsel|].
  exact (filter_section_at_picked_dates Sample.scenario ["sun"; "rain"] _
           15340 15341 Hrow Hsel).
Defined.

Section SmallSizes.

Import FormatSize.

(** A whole number that is not negative is printed with [.00]. *)
Lemma format_2f_whole (n : Z) :
  (0 <= n)%Z -> format_2f (inject_Z n) = Text.str_of_nonneg n ++ ".00".
Proof.
  intros Hn. unfold format_2f, round_half_even.
  change (Qnum (inject_Z n * 100)) with (n * 100)%Z.
  change (Zpos (Qden (inject_Z n * 100))) with 1%Z.
  rewrite Z.div_1_r, Z.mod_1_r. simpl Z.compare.
  rewrite Z.abs_eq by lia.
  rewrite Z.div_mul by lia.
  replace (n * 100)%Z with (n * 10 * 10)%Z by lia.
  rewrite Z.div_mul by lia.
  rewrite !Z.mod_mul by lia.
  assert (Hsign : Qgtb 0 (inject_Z n) = false).
  { apply Qgtb_false. unfold Qle, inject_Z. simpl. lia. }
  rewrite Hsign. reflexivity.
Qed.

Context {float : Type} (dialect : Csv.Dialect float).

(** X16. A table whose text has at most 1024 characters is displayed with
    its exact character count: the count, [.00] and the unit B. *)
Theorem small_size_is_exact (frame : Frame.DataFrame float)
    (Hsmall : (App.csv_size_bytes dialect frame <= 1024)%nat) :
  App.formatted_size dialect frame
  = Some (Text.str_of_nonneg (Z.of_nat (App.csv_size_bytes dialect frame))
          ++ ".00 B").
Proof.
  unfold App.formatted_size.
  set (n := App.csv_size_bytes dialect frame) in *.
  assert (Hq : (inject_Z (Z.of_nat n) <= 1024)%Q).
  { unfold Qle, inject_Z. simpl. lia. }
  unfold format_size, format_size_fuel, init. simpl while. unfold cond.
  simpl size. rewrite (proj2 (Qgtb_false _ _) Hq). simpl andb. cbv iota.
  unfold render. simpl unit. simpl nth_error. simpl size.
  rewrite format_2f_whole by lia.
  rewrite append_assoc. reflexivity.
Qed.

End SmallSizes.

Lemma small_size_is_exact_witness :
  (App.csv_size_bytes Sample.plain Sample.scenario <= 1024)%nat
  /\ App.formatted_size Sample.plain Sample.scenario = Some "151.00 B".
Proof.
  assert (Hsmall : (App.csv_size_bytes Sample.plain Sample.scenario
                    <= 1024)%nat) by (vm_compute; lia).
  split; [exact Hsmall|].
  exact (small_size_is_exact Sample.plain Sample.scenario Hsmall).
Defined.
